(** * go-xamarin: the build orchestration of [builder/builder.go]

    A shallow embedding of the [builder] package: project filtering,
    command planning, command execution with its "already performed" list,
    and artifact collection.  Go packages become modules ([constants],
    [project], [solution], [buildtool]); the functions of [builder.go] are
    translated one by one.  External effects (running a command, the two
    caller callbacks) thread an abstract world, and every such call is
    recorded in a log so that statements can speak about what was invoked,
    in which order and with which arguments. *)

From stdpp Require Import gmap strings list fin_maps.

Open Scope string_scope.
Open Scope list_scope.

(** Go's [error]: only its presence and identity matter here. *)
Definition Err := string.

(* ===================================================================== *)
(** ** package constants *)
(* ===================================================================== *)

Module constants.

(** [constants.ProjectType]: the values [builder.go] mentions. *)
Inductive ProjectType :=
| ProjectTypeUnknown
| ProjectTypeIOS
| ProjectTypeTvOS
| ProjectTypeMacOS
| ProjectTypeAndroid.

(** [constants.OutputType]: the artifact kinds [CollectOutput] records. *)
Inductive OutputType :=
| OutputTypeXCArchive
| OutputTypeIPA
| OutputTypeDSYM
| OutputTypeAPP
| OutputTypePKG
| OutputTypeAPK.

#[global] Instance ProjectType_eq_dec : EqDecision ProjectType.
Proof. solve_decision. Defined.

#[global] Instance OutputType_eq_dec : EqDecision OutputType.
Proof. solve_decision. Defined.

Definition ProjectType_code (t : ProjectType) : nat :=
  match t with
  | ProjectTypeUnknown => 0
  | ProjectTypeIOS => 1
  | ProjectTypeTvOS => 2
  | ProjectTypeMacOS => 3
  | ProjectTypeAndroid => 4
  end.

Definition ProjectType_of_code (n : nat) : ProjectType :=
  match n with
  | 1 => ProjectTypeIOS
  | 2 => ProjectTypeTvOS
  | 3 => ProjectTypeMacOS
  | 4 => ProjectTypeAndroid
  | _ => ProjectTypeUnknown
  end.

#[global] Instance ProjectType_countable : Countable ProjectType.
Proof.
  apply (inj_countable' ProjectType_code ProjectType_of_code).
  intros t; destruct t; reflexivity.
Defined.

Definition OutputType_code (t : OutputType) : nat :=
  match t with
  | OutputTypeXCArchive => 0
  | OutputTypeIPA => 1
  | OutputTypeDSYM => 2
  | OutputTypeAPP => 3
  | OutputTypePKG => 4
  | OutputTypeAPK => 5
  end.

Definition OutputType_of_code (n : nat) : OutputType :=
  match n with
  | 0 => OutputTypeXCArchive
  | 1 => OutputTypeIPA
  | 2 => OutputTypeDSYM
  | 3 => OutputTypeAPP
  | 4 => OutputTypePKG
  | _ => OutputTypeAPK
  end.

#[global] Instance OutputType_countable : Countable OutputType.
Proof.
  apply (inj_countable' OutputType_code OutputType_of_code).
  intros t; destruct t; reflexivity.
Defined.

End constants.

(* ===================================================================== *)
(** ** package project *)
(* ===================================================================== *)

Module project.

(** The project configuration [builder.go] reads through
    [proj.Configs[key]]: [Configuration], [Platform], [OutputDir],
    [SignAndroid], [MtouchArchs]. *)
Record ConfigurationPlatformModel := {
  Configuration : string;
  Platform : string;
  OutputDir : string;
  SignAndroid : bool;
  MtouchArchs : list string
}.

(** [project.Model], with the fields [builder.go] reads.  [ConfigMap]
    is Go's [map[string]string] from solution configuration to project
    configuration key, [Configs] the map from that key to the
    configuration. *)
Record Model := {
  Name : string;
  Pth : string;
  ProjectType : constants.ProjectType;
  OutputType : string;
  AssemblyName : string;
  ManifestPth : string;
  AndroidApplication : bool;
  ConfigMap : gmap string string;
  Configs : gmap string ConfigurationPlatformModel
}.

End project.

(* ===================================================================== *)
(** ** package solution *)
(* ===================================================================== *)

Module solution.

(** [solution.Model].  [ProjectMap] is a Go map ranged over by
    [filteredProjects]; Go fixes no iteration order, so the model keeps
    the entries as the list in which one [range] visits them. *)
Record Model := {
  Pth : string;
  ProjectMap : list (string * project.Model)
}.

End solution.

(* ===================================================================== *)
(** ** package buildtool, with mdtool and xbuild *)
(* ===================================================================== *)

Module mdtool.

(** Modelled from the spec: package [mdtool] is not among the sources.
    A command of the native IDE tool is the record of what [New] and the
    setters called by [builder.go] were given; a field no setter touched
    is [None].  [customOptions] is the part a prepare callback may
    edit. *)
Record Model := {
  solutionPth : string;
  target : option string;
  configuration : option string;
  platform : option string;
  projectName : option string;
  customOptions : list string
}.

Definition New (solutionPth : string) : Model :=
  {| solutionPth := solutionPth; target := None; configuration := None;
     platform := None; projectName := None; customOptions := [] |}.

Definition SetTarget (t : string) (c : Model) : Model :=
  {| solutionPth := solutionPth c; target := Some t;
     configuration := configuration c; platform := platform c;
     projectName := projectName c; customOptions := customOptions c |}.

Definition SetConfiguration (s : string) (c : Model) : Model :=
  {| solutionPth := solutionPth c; target := target c;
     configuration := Some s; platform := platform c;
     projectName := projectName c; customOptions := customOptions c |}.

Definition SetPlatform (s : string) (c : Model) : Model :=
  {| solutionPth := solutionPth c; target := target c;
     configuration := configuration c; platform := Some s;
     projectName := projectName c; customOptions := customOptions c |}.

Definition SetProjectName (s : string) (c : Model) : Model :=
  {| solutionPth := solutionPth c; target := target c;
     configuration := configuration c; platform := platform c;
     projectName := Some s; customOptions := customOptions c |}.

End mdtool.

Module xbuild.

(** Modelled from the spec: package [xbuild] is not among the sources.
    A build-engine command records the path given to [New] (a solution
    or a project file) and what the setters were given. *)
Record Model := {
  projectPth : string;
  target : option string;
  configuration : option string;
  platform : option string;
  buildIpa : bool;
  archiveOnBuild : bool;
  customOptions : list string
}.

Definition New (pth : string) : Model :=
  {| projectPth := pth; target := None; configuration := None;
     platform := None; buildIpa := false; archiveOnBuild := false;
     customOptions := [] |}.

Definition SetTarget (t : string) (c : Model) : Model :=
  {| projectPth := projectPth c; target := Some t;
     configuration := configuration c; platform := platform c;
     buildIpa := buildIpa c; archiveOnBuild := archiveOnBuild c;
     customOptions := customOptions c |}.

Definition SetConfiguration (s : string) (c : Model) : Model :=
  {| projectPth := projectPth c; target := target c;
     configuration := Some s; platform := platform c;
     buildIpa := buildIpa c; archiveOnBuild := archiveOnBuild c;
     customOptions := customOptions c |}.

Definition SetPlatform (s : string) (c : Model) : Model :=
  {| projectPth := projectPth c; target := target c;
     configuration := configuration c; platform := Some s;
     buildIpa := buildIpa c; archiveOnBuild := archiveOnBuild c;
     customOptions := customOptions c |}.

Definition SetBuildIpa (b : bool) (c : Model) : Model :=
  {| projectPth := projectPth c; target := target c;
     configuration := configuration c; platform := platform c;
     buildIpa := b; archiveOnBuild := archiveOnBuild c;
     customOptions := customOptions c |}.

Definition SetArchiveOnBuild (b : bool) (c : Model) : Model :=
  {| projectPth := projectPth c; target := target c;
     configuration := configuration c; platform := platform c;
     buildIpa := buildIpa c; archiveOnBuild := b;
     customOptions := customOptions c |}.

End xbuild.

Module buildtool.

(** The interface value [buildtool.RunnableCommand]: one of the two
    command types [builder.go] stores in [buildCommands]. *)
Inductive RunnableCommand :=
| MDTool (c : mdtool.Model)
| XBuild (c : xbuild.Model).

(** The two mutually exclusive toolchains. *)
Inductive Toolchain := NativeIDETool | BuildEngine.

#[global] Instance Toolchain_eq_dec : EqDecision Toolchain.
Proof. solve_decision. Defined.

(** Modelled from the spec: package [buildtool] is not among the
    sources.  The spec's identity fields of a command: toolchain, target
    action, configuration, platform and, where there is one, the project
    name.  Flags, paths and custom options are no part of it. *)
Record Identity := {
  toolchain : Toolchain;
  action : option string;
  configuration : option string;
  platform : option string;
  projectName : option string
}.

#[global] Instance Identity_eq_dec : EqDecision Identity.
Proof. solve_decision. Defined.

Definition identity (cmd : RunnableCommand) : Identity :=
  match cmd with
  | MDTool c =>
      {| toolchain := NativeIDETool; action := mdtool.target c;
         configuration := mdtool.configuration c;
         platform := mdtool.platform c;
         projectName := mdtool.projectName c |}
  | XBuild c =>
      {| toolchain := BuildEngine; action := xbuild.target c;
         configuration := xbuild.configuration c;
         platform := xbuild.platform c;
         projectName := None |}
  end.

(** Modelled from the spec: two commands are equal when all their
    identity fields match. *)
Definition commandEqual (c1 c2 : RunnableCommand) : bool :=
  bool_decide (identity c1 = identity c2).

(** Modelled from the spec: [buildtool.BuildCommandSliceContains] is not
    among the sources; the command equals some entry of the slice. *)
Definition BuildCommandSliceContains
    (cmdSlice : list RunnableCommand) (cmd : RunnableCommand) : bool :=
  existsb (fun c => commandEqual c cmd) cmdSlice.

End buildtool.


(* ===================================================================== *)
(** ** package builder *)
(* ===================================================================== *)

(** Go's method chaining [x.f(a)] for the setters above. *)
Notation "c |> f" := (f c) (at level 50, left associativity, only parsing).

Module builder.

Import constants buildtool.

(** A Go result pair [(value, error)] of the artifact probes. *)
Inductive result (A : Type) :=
| Ok (a : A)
| Fail (err : Err).

Arguments Ok {A} a.
Arguments Fail {A} err.

#[global] Instance result_ret : MRet result := fun A a => Ok a.

#[global] Instance result_bind : MBind result := fun A B f r =>
  match r with
  | Ok a => f a
  | Fail err => Fail err
  end.

(** The functions [builder.go] calls that are declared in files which are
    not among the sources: [utility.ToConfig] and the unexported helpers
    of package [builder].  The orchestration is translated over any
    implementation of them.  The artifact probes read the file system,
    which does not change during one [CollectOutput]; they are functions
    of their arguments. *)
Class Helpers := {
  ToConfig : string -> string -> string;
  validateSolutionConfig : solution.Model -> string -> string -> option Err;
  isProjectTypeAllowed : ProjectType -> list ProjectType -> bool;
  isArchitectureArchiveable : list string -> bool;
  isPlatformAnyCPU : string -> bool;
  exportLatestXCArchiveFromXcodeArchives : string -> result string;
  exportLatestIpa : string -> string -> result string;
  exportAppDSYM : string -> string -> result string;
  exportApp : string -> string -> result string;
  exportPKG : string -> string -> result string;
  androidPackageName : string -> result string;
  exportApk : string -> string -> result string
}.

(** What lies outside the process: [World] is its state, and
    [buildCommand.Run()] acts on it and may fail. *)
Class Machine := {
  World : Type;
  Run : RunnableCommand -> World -> option Err * World
}.

(** [builder.Model] *)
Record Model := {
  solution : solution.Model;
  projectTypeWhitelist : list ProjectType;
  forceMDTool : bool
}.

(** [PrepareBuildCommandCallback]: it receives a pointer to the command
    and may edit it in place; the model returns the command as the
    callback left it. *)
Definition PrepareBuildCommandCallback {mc : Machine} : Type :=
  project.Model -> RunnableCommand -> World -> RunnableCommand * World.

(** [BuildCommandCallback] *)
Definition BuildCommandCallback {mc : Machine} : Type :=
  project.Model -> RunnableCommand -> bool -> World -> World.

(** One entry of the log: a call that [BuildAllProjects] made, with its
    arguments and, for [Run], what it returned and the project whose
    commands were being run. *)
Inductive Event :=
| PrepareCalled (proj : project.Model) (command : RunnableCommand)
| CallbackCalled (proj : project.Model) (command : RunnableCommand)
    (alreadyPerformed : bool)
| RunCalled (proj : project.Model) (command : RunnableCommand)
    (err : option Err).

Definition eventProject (e : Event) : project.Model :=
  match e with
  | PrepareCalled proj _ => proj
  | CallbackCalled proj _ _ => proj
  | RunCalled proj _ _ => proj
  end.

(** The commands whose [Run] returned without error, in log order. *)
Fixpoint succeededRuns (events : list Event) : list RunnableCommand :=
  match events with
  | [] => []
  | RunCalled _ command None :: events => command :: succeededRuns events
  | _ :: events => succeededRuns events
  end.

(** The [Run] calls of a log, with their results. *)
Fixpoint runsOf (events : list Event)
    : list (RunnableCommand * option Err) :=
  match events with
  | [] => []
  | RunCalled _ command err :: events => (command, err) :: runsOf events
  | _ :: events => runsOf events
  end.

(** The [alreadyPerformed] flags the callback was given, in log order. *)
Fixpoint flagsOf (events : list Event) : list (RunnableCommand * bool) :=
  match events with
  | [] => []
  | CallbackCalled _ command alreadyPerformed :: events =>
      (command, alreadyPerformed) :: flagsOf events
  | _ :: events => flagsOf events
  end.

Definition isFailedRun (e : Event) : bool :=
  match e with
  | RunCalled _ _ (Some _) => true
  | _ => false
  end.

(** The state threaded through a build pass. *)
Record Pass {mc : Machine} := {
  world : World;
  log : list Event
}.

(** [filteredProjects], the loop over [builder.solution.ProjectMap];
    [projects] is the slice built so far. *)
Fixpoint rangeProjectMap {hs : Helpers} (builder : Model)
    (entries : list (string * project.Model))
    (projects : list project.Model) : list project.Model :=
  match entries with
  | [] => projects
  | (_, proj) :: entries =>
      if negb (isProjectTypeAllowed (project.ProjectType proj)
                 (projectTypeWhitelist builder))
      then rangeProjectMap builder entries projects
      else if bool_decide (project.ProjectType proj <> ProjectTypeUnknown)
      then rangeProjectMap builder entries (projects ++ [proj])
      else rangeProjectMap builder entries projects
  end.

Definition filteredProjects {hs : Helpers} (builder : Model)
    : list project.Model :=
  rangeProjectMap builder (solution.ProjectMap (solution builder)) [].

(** The three warnings of [buildableProjects] and the one more of
    [BuildAllProjects] ([fmt.Sprintf] with [%s] only). *)
Definition warnNoConfig (proj : project.Model) (solutionConfig : string)
    : string :=
  "project (" +:+ project.Name proj +:+
  ") do not have config for solution config (" +:+ solutionConfig +:+
  "), skipping...".

Definition warnOutputType (proj : project.Model) : string :=
  "project (" +:+ project.Name proj +:+
  ") does not archivable based on output type (" +:+
  project.OutputType proj +:+ "), skipping...".

Definition warnNotAndroidApplication (proj : project.Model) : string :=
  "(" +:+ project.Name proj +:+
  ") is not an android application project, skipping...".

Definition warnNoProjectConfiguration (proj : project.Model)
    (solutionConfig : string) : string :=
  "project (" +:+ project.Name proj +:+
  ") contains mapping for solution config (" +:+ solutionConfig +:+
  "), but does not have project configuration".

(** [buildableProjects], the loop over the filtered projects. *)
Fixpoint rangeFilteredProjects (solutionConfig : string)
    (filtered : list project.Model)
    (projects : list project.Model) (warnings : list string)
    : list project.Model * list string :=
  match filtered with
  | [] => (projects, warnings)
  | proj :: filtered =>
      match project.ConfigMap proj !! solutionConfig with
      | None =>
          rangeFilteredProjects solutionConfig filtered projects
            (warnings ++ [warnNoConfig proj solutionConfig])
      | Some _ =>
          if (bool_decide (project.ProjectType proj = ProjectTypeIOS)
              || bool_decide (project.ProjectType proj = ProjectTypeMacOS)
              || bool_decide (project.ProjectType proj = ProjectTypeTvOS))
             && bool_decide (project.OutputType proj <> "exe")
          then rangeFilteredProjects solutionConfig filtered projects
                 (warnings ++ [warnOutputType proj])
          else if bool_decide (project.ProjectType proj = ProjectTypeAndroid)
                  && negb (project.AndroidApplication proj)
          then rangeFilteredProjects solutionConfig filtered projects
                 (warnings ++ [warnNotAndroidApplication proj])
          else if bool_decide
                    (project.ProjectType proj <> ProjectTypeUnknown)
          then rangeFilteredProjects solutionConfig filtered
                 (projects ++ [proj]) warnings
          else rangeFilteredProjects solutionConfig filtered projects warnings
      end
  end.

Definition buildableProjects {hs : Helpers} (builder : Model)
    (configuration platform : string)
    : list project.Model * list string :=
  let solutionConfig := ToConfig configuration platform in
  let filteredProjects := filteredProjects builder in
  rangeFilteredProjects solutionConfig filteredProjects [] [].

(** The "Prepare build commands" block of [BuildAllProjects]: the switch
    on [proj.ProjectType] that fills [buildCommands]. *)
Definition prepareBuildCommands {hs : Helpers} (builder : Model)
    (configuration platform : string) (proj : project.Model)
    (projectConfig : project.ConfigurationPlatformModel)
    : list RunnableCommand :=
  let buildCommands : list RunnableCommand := [] in
  match project.ProjectType proj with
  | ProjectTypeIOS | ProjectTypeTvOS =>
      if forceMDTool builder then
        let command :=
          mdtool.New (solution.Pth (solution builder))
          |> mdtool.SetTarget "build"
          |> mdtool.SetConfiguration (project.Configuration projectConfig)
          |> mdtool.SetPlatform (project.Platform projectConfig)
          |> mdtool.SetProjectName (project.Name proj) in
        let buildCommands := buildCommands ++ [MDTool command] in
        if isArchitectureArchiveable (project.MtouchArchs projectConfig) then
          let command :=
            mdtool.New (solution.Pth (solution builder))
            |> mdtool.SetTarget "archive"
            |> mdtool.SetConfiguration (project.Configuration projectConfig)
            |> mdtool.SetPlatform (project.Platform projectConfig)
            |> mdtool.SetProjectName (project.Name proj) in
          buildCommands ++ [MDTool command]
        else buildCommands
      else
        let command :=
          xbuild.New (solution.Pth (solution builder))
          |> xbuild.SetTarget "Build"
          |> xbuild.SetConfiguration configuration
          |> xbuild.SetPlatform platform in
        let command :=
          if isArchitectureArchiveable (project.MtouchArchs projectConfig)
          then command |> xbuild.SetBuildIpa true
                       |> xbuild.SetArchiveOnBuild true
          else command in
        buildCommands ++ [XBuild command]
  | ProjectTypeMacOS =>
      if forceMDTool builder then
        let command :=
          mdtool.New (solution.Pth (solution builder))
          |> mdtool.SetTarget "build"
          |> mdtool.SetConfiguration (project.Configuration projectConfig)
          |> mdtool.SetPlatform (project.Platform projectConfig)
          |> mdtool.SetProjectName (project.Name proj) in
        let buildCommands := buildCommands ++ [MDTool command] in
        let command :=
          mdtool.New (solution.Pth (solution builder))
          |> mdtool.SetTarget "archive"
          |> mdtool.SetConfiguration (project.Configuration projectConfig)
          |> mdtool.SetPlatform (project.Platform projectConfig)
          |> mdtool.SetProjectName (project.Name proj) in
        buildCommands ++ [MDTool command]
      else
        let command :=
          xbuild.New (solution.Pth (solution builder))
          |> xbuild.SetTarget "Build"
          |> xbuild.SetConfiguration configuration
          |> xbuild.SetPlatform platform
          |> xbuild.SetArchiveOnBuild true in
        buildCommands ++ [XBuild command]
  | ProjectTypeAndroid =>
      let command := xbuild.New (project.Pth proj) in
      let command :=
        if project.SignAndroid projectConfig
        then command |> xbuild.SetTarget "SignAndroidPackage"
        else command |> xbuild.SetTarget "PackageForAndroid" in
      let command :=
        command
        |> xbuild.SetConfiguration (project.Configuration projectConfig) in
      let command :=
        if negb (isPlatformAnyCPU (project.Platform projectConfig))
        then command |> xbuild.SetPlatform (project.Platform projectConfig)
        else command in
      buildCommands ++ [XBuild command]
  | ProjectTypeUnknown => buildCommands
  end.

Section Execution.

Context {mc : Machine}.

(** [if prepareCallback != nil { prepareCallback(proj, &editabeCommand) }] *)
Definition callPrepare (prepareCallback : option PrepareBuildCommandCallback)
    (proj : project.Model) (buildCommand : RunnableCommand) (st : Pass)
    : RunnableCommand * Pass :=
  match prepareCallback with
  | None => (buildCommand, st)
  | Some f =>
      let '(edited, w) := f proj buildCommand (world st) in
      (edited,
       {| world := w; log := log st ++ [PrepareCalled proj buildCommand] |})
  end.

(** [if callback != nil { callback(proj, buildCommand, alreadyPerformed) }] *)
Definition callCallback (callback : option BuildCommandCallback)
    (proj : project.Model) (buildCommand : RunnableCommand)
    (alreadyPerformed : bool) (st : Pass) : Pass :=
  match callback with
  | None => st
  | Some f =>
      {| world := f proj buildCommand alreadyPerformed (world st);
         log := log st ++ [CallbackCalled proj buildCommand alreadyPerformed] |}
  end.

(** [buildCommand.Run()] *)
Definition callRun (proj : project.Model) (buildCommand : RunnableCommand)
    (st : Pass) : option Err * Pass :=
  let '(err, w) := Run buildCommand (world st) in
  (err, {| world := w; log := log st ++ [RunCalled proj buildCommand err] |}).

(** The "Run build command" loop over [buildCommands].  It returns the
    error of a failed [Run], if any, and [perfomedCommands] as it stands
    when the loop is left. *)
Fixpoint rangeBuildCommands
    (prepareCallback : option PrepareBuildCommandCallback)
    (callback : option BuildCommandCallback)
    (proj : project.Model) (buildCommands : list RunnableCommand)
    (perfomedCommands : list RunnableCommand) (st : Pass)
    : option Err * list RunnableCommand * Pass :=
  match buildCommands with
  | [] => (None, perfomedCommands, st)
  | buildCommand :: buildCommands =>
      let '(buildCommand, st) :=
        callPrepare prepareCallback proj buildCommand st in
      let alreadyPerformed :=
        BuildCommandSliceContains perfomedCommands buildCommand in
      let st := callCallback callback proj buildCommand alreadyPerformed st in
      if negb alreadyPerformed then
        match callRun proj buildCommand st with
        | (Some err, st) => (Some err, perfomedCommands, st)
        | (None, st) =>
            rangeBuildCommands prepareCallback callback proj buildCommands
              (perfomedCommands ++ [buildCommand]) st
        end
      else
        rangeBuildCommands prepareCallback callback proj buildCommands
          perfomedCommands st
  end.

Context {hs : Helpers}.

(** The loop of [BuildAllProjects] over [buildableProjects].
    [perfomedCommands] is declared inside the loop body, so every project
    starts from the empty slice. *)
Fixpoint rangeBuildableProjects (builder : Model)
    (configuration platform solutionConfig : string)
    (prepareCallback : option PrepareBuildCommandCallback)
    (callback : option BuildCommandCallback)
    (buildableProjects : list project.Model)
    (warnings : list string) (st : Pass)
    : (list string * option Err) * Pass :=
  match buildableProjects with
  | [] => ((warnings, None), st)
  | proj :: buildableProjects =>
      match project.ConfigMap proj !! solutionConfig with
      | None =>
          rangeBuildableProjects builder configuration platform solutionConfig
            prepareCallback callback buildableProjects
            (warnings ++ [warnNoConfig proj solutionConfig]) st
      | Some projectConfigKey =>
          match project.Configs proj !! projectConfigKey with
          | None =>
              rangeBuildableProjects builder configuration platform
                solutionConfig prepareCallback callback buildableProjects
                (warnings ++ [warnNoProjectConfiguration proj solutionConfig])
                st
          | Some projectConfig =>
              let buildCommands :=
                prepareBuildCommands builder configuration platform proj
                  projectConfig in
              let perfomedCommands : list RunnableCommand := [] in
              match rangeBuildCommands prepareCallback callback proj
                      buildCommands perfomedCommands st with
              | (Some err, _, st) => ((warnings, Some err), st)
              | (None, _, st) =>
                  rangeBuildableProjects builder configuration platform
                    solutionConfig prepareCallback callback buildableProjects
                    warnings st
              end
          end
      end
  end.

(** [BuildAllProjects] *)
Definition BuildAllProjects (builder : Model)
    (configuration platform : string)
    (prepareCallback : option PrepareBuildCommandCallback)
    (callback : option BuildCommandCallback) (st : Pass)
    : (list string * option Err) * Pass :=
  match validateSolutionConfig (solution builder) configuration platform with
  | Some err => (([], Some err), st)
  | None =>
      let solutionConfig := ToConfig configuration platform in
      let '(buildableProjects, warnings) :=
        buildableProjects builder configuration platform in
      if bool_decide (length buildableProjects = 0)
      then ((warnings, None), st)
      else rangeBuildableProjects builder configuration platform
             solutionConfig prepareCallback callback buildableProjects
             warnings st
  end.

End Execution.

(** [OutputMap]: project type to artifact kind to path. *)
Abbreviation OutputMap := (gmap ProjectType (gmap OutputType string)).

Section Collection.

Context {hs : Helpers}.

(** [if pth != "" { projectTypeOutputMap[kind] = pth }] *)
Definition putFound (kind : OutputType) (pth : string)
    (projectTypeOutputMap : gmap OutputType string)
    : gmap OutputType string :=
  if bool_decide (pth <> "") then <[kind := pth]> projectTypeOutputMap
  else projectTypeOutputMap.

(** The switch of [CollectOutput] on [proj.ProjectType]: the probes of one
    project, written into [projectTypeOutputMap]; the first probe that
    fails ends it. *)
Definition probeProject (builder : Model) (proj : project.Model)
    (projectConfig : project.ConfigurationPlatformModel)
    (projectTypeOutputMap : gmap OutputType string)
    : result (gmap OutputType string) :=
  match project.ProjectType proj with
  | ProjectTypeIOS | ProjectTypeTvOS =>
      xcarchivePth ← exportLatestXCArchiveFromXcodeArchives
                       (project.AssemblyName proj);
      let projectTypeOutputMap :=
        putFound OutputTypeXCArchive xcarchivePth projectTypeOutputMap in
      ipaPth ← exportLatestIpa (project.OutputDir projectConfig)
                 (project.AssemblyName proj);
      let projectTypeOutputMap :=
        putFound OutputTypeIPA ipaPth projectTypeOutputMap in
      dsymPth ← exportAppDSYM (project.OutputDir projectConfig)
                  (project.AssemblyName proj);
      mret (putFound OutputTypeDSYM dsymPth projectTypeOutputMap)
  | ProjectTypeMacOS =>
      projectTypeOutputMap ←
        (if forceMDTool builder then
           xcarchivePth ← exportLatestXCArchiveFromXcodeArchives
                            (project.AssemblyName proj);
           mret (putFound OutputTypeXCArchive xcarchivePth
                   projectTypeOutputMap)
         else mret projectTypeOutputMap);
      appPth ← exportApp (project.OutputDir projectConfig)
                 (project.AssemblyName proj);
      let projectTypeOutputMap :=
        putFound OutputTypeAPP appPth projectTypeOutputMap in
      pkgPth ← exportPKG (project.OutputDir projectConfig)
                 (project.AssemblyName proj);
      mret (putFound OutputTypePKG pkgPth projectTypeOutputMap)
  | ProjectTypeAndroid =>
      packageName ← androidPackageName (project.ManifestPth proj);
      apkPth ← exportApk (project.OutputDir projectConfig) packageName;
      mret (putFound OutputTypeAPK apkPth projectTypeOutputMap)
  | ProjectTypeUnknown => mret projectTypeOutputMap
  end.

(** The loop of [CollectOutput].  A Go map is a reference: when
    [outputMap] already has an entry for the project type,
    [projectTypeOutputMap] is that very map and the probes write through
    it; a fresh map is stored only by the final [len(...) > 0] test. *)
Fixpoint rangeCollect (builder : Model) (solutionConfig : string)
    (buildableProjects : list project.Model) (outputMap : OutputMap)
    : OutputMap * option Err :=
  match buildableProjects with
  | [] => (outputMap, None)
  | proj :: buildableProjects =>
      match project.ConfigMap proj !! solutionConfig with
      | None => rangeCollect builder solutionConfig buildableProjects outputMap
      | Some projectConfigKey =>
          match project.Configs proj !! projectConfigKey with
          | None =>
              rangeCollect builder solutionConfig buildableProjects outputMap
          | Some projectConfig =>
              let '(projectTypeOutputMap, ok) :=
                match outputMap !! project.ProjectType proj with
                | Some m => (m, true)
                | None => (∅, false)
                end in
              match probeProject builder proj projectConfig
                      projectTypeOutputMap with
              | Fail err => (∅, Some err)
              | Ok projectTypeOutputMap =>
                  let outputMap :=
                    if ok || bool_decide (0 < size projectTypeOutputMap)
                    then <[project.ProjectType proj := projectTypeOutputMap]>
                           outputMap
                    else outputMap in
                  rangeCollect builder solutionConfig buildableProjects
                    outputMap
              end
          end
      end
  end.

(** [CollectOutput] *)
Definition CollectOutput (builder : Model) (configuration platform : string)
    : OutputMap * option Err :=
  let outputMap : OutputMap := ∅ in
  let '(buildableProjects, _) :=
    buildableProjects builder configuration platform in
  let solutionConfig := ToConfig configuration platform in
  rangeCollect builder solutionConfig buildableProjects outputMap.

(** The probes [CollectOutput] makes for one project with its resolved
    configuration, as (artifact kind, result) pairs: what the switch in
    [probeProject] calls when no earlier probe has failed. *)
Definition probesOf (builder : Model) (proj : project.Model)
    (projectConfig : project.ConfigurationPlatformModel)
    : list (OutputType * result string) :=
  let outputDir := project.OutputDir projectConfig in
  let assemblyName := project.AssemblyName proj in
  match project.ProjectType proj with
  | ProjectTypeIOS | ProjectTypeTvOS =>
      [(OutputTypeXCArchive,
        exportLatestXCArchiveFromXcodeArchives assemblyName);
       (OutputTypeIPA, exportLatestIpa outputDir assemblyName);
       (OutputTypeDSYM, exportAppDSYM outputDir assemblyName)]
  | ProjectTypeMacOS =>
      (if forceMDTool builder
       then [(OutputTypeXCArchive,
              exportLatestXCArchiveFromXcodeArchives assemblyName)]
       else [])
      ++ [(OutputTypeAPP, exportApp outputDir assemblyName);
          (OutputTypePKG, exportPKG outputDir assemblyName)]
  | ProjectTypeAndroid =>
      match androidPackageName (project.ManifestPth proj) with
      | Ok packageName => [(OutputTypeAPK, exportApk outputDir packageName)]
      | Fail _ => []
      end
  | ProjectTypeUnknown => []
  end.

(** An artifact probe for a project of type [t] returned a non-empty
    path: some buildable project of that type, with its configuration
    resolved as [CollectOutput] resolves it, has such a probe. *)
Definition probeFound (builder : Model) (configuration platform : string)
    (t : ProjectType) : Prop :=
  exists proj projectConfigKey projectConfig kind pth,
    proj ∈ (buildableProjects builder configuration platform).1 /\
    project.ProjectType proj = t /\
    project.ConfigMap proj !! ToConfig configuration platform
      = Some projectConfigKey /\
    project.Configs proj !! projectConfigKey = Some projectConfig /\
    (kind, Ok pth) ∈ probesOf builder proj projectConfig /\
    pth <> "".

End Collection.

(** What the loop of [BuildAllProjects] adds to [warnings] for one
    project, and for a run of projects: the two configuration lookups at
    the head of the loop body. *)
Definition resolutionWarning (solutionConfig : string)
    (proj : project.Model) : list string :=
  match project.ConfigMap proj !! solutionConfig with
  | None => [warnNoConfig proj solutionConfig]
  | Some projectConfigKey =>
      match project.Configs proj !! projectConfigKey with
      | None => [warnNoProjectConfiguration proj solutionConfig]
      | Some _ => []
      end
  end.

Definition resolutionWarnings (solutionConfig : string)
    (projs : list project.Model) : list string :=
  concat (map (resolutionWarning solutionConfig) projs).

(** The project configuration the loop body ends up with, if both lookups
    succeed. *)
Definition resolvedConfig (solutionConfig : string) (proj : project.Model)
    : option project.ConfigurationPlatformModel :=
  match project.ConfigMap proj !! solutionConfig with
  | None => None
  | Some projectConfigKey => project.Configs proj !! projectConfigKey
  end.

(** [ClearCommandCallback], and what [CleanAll] needs of the file system:
    [filepath.Dir], [filepath.Join] (of two elements),
    [pathutil.IsDirExists] and [os.RemoveAll].  They belong to other
    packages; [CleanAll] is translated over any implementation.  The
    existence test reads the disk, the removal changes it and may
    fail. *)
Class Disk := {
  DiskWorld : Type;
  filepath_Dir : string -> string;
  filepath_Join : string -> string -> string;
  pathutil_IsDirExists : string -> DiskWorld -> result bool;
  os_RemoveAll : string -> DiskWorld -> option Err * DiskWorld
}.

Definition ClearCommandCallback {dk : Disk} : Type :=
  project.Model -> string -> DiskWorld -> DiskWorld.

(** One entry of the log of [CleanAll]: a call it made, the project
    being cleaned, and what the call returned. *)
Inductive CleanEvent :=
| IsDirExistsCalled (proj : project.Model) (pth : string)
    (res : result bool)
| ClearCallbackCalled (proj : project.Model) (dir : string)
| RemoveAllCalled (proj : project.Model) (pth : string) (err : option Err).

(** The state threaded through [CleanAll]. *)
Record Sweep {dk : Disk} := {
  disk : DiskWorld;
  calls : list CleanEvent
}.

Section Cleaning.

Context {dk : Disk}.

(** One of the two blocks of the loop body of [CleanAll], which differ
    in the path only ([binPth], [objPth]):
    [if exist, err := pathutil.IsDirExists(pth); err != nil { return err }
     else if exist { callback; if err := os.RemoveAll(pth) ... }].
    A returned error is the [return err] of the block. *)
Definition removeIfExists (callback : option ClearCommandCallback)
    (proj : project.Model) (pth : string) (st : Sweep)
    : option Err * Sweep :=
  let res := pathutil_IsDirExists pth (disk st) in
  let st :=
    {| disk := disk st;
       calls := calls st ++ [IsDirExistsCalled proj pth res] |} in
  match res with
  | Fail err => (Some err, st)
  | Ok dirExist =>
      if dirExist then
        let st :=
          match callback with
          | None => st
          | Some f =>
              {| disk := f proj pth (disk st);
                 calls := calls st ++ [ClearCallbackCalled proj pth] |}
          end in
        let '(err, d) := os_RemoveAll pth (disk st) in
        (err,
         {| disk := d; calls := calls st ++ [RemoveAllCalled proj pth err] |})
      else (None, st)
  end.

(** The loop of [CleanAll] over the filtered projects. *)
Fixpoint rangeClean (callback : option ClearCommandCallback)
    (filteredProjects : list project.Model) (st : Sweep)
    : option Err * Sweep :=
  match filteredProjects with
  | [] => (None, st)
  | proj :: filteredProjects =>
      let projectDir := filepath_Dir (project.Pth proj) in
      let binPth := filepath_Join projectDir "bin" in
      match removeIfExists callback proj binPth st with
      | (Some err, st) => (Some err, st)
      | (None, st) =>
          let objPth := filepath_Join projectDir "obj" in
          match removeIfExists callback proj objPth st with
          | (Some err, st) => (Some err, st)
          | (None, st) => rangeClean callback filteredProjects st
          end
      end
  end.

(** [CleanAll] *)
Definition CleanAll {hs : Helpers} (builder : Model)
    (callback : option ClearCommandCallback) (st : Sweep)
    : option Err * Sweep :=
  let filteredProjects := filteredProjects builder in
  rangeClean callback filteredProjects st.

End Cleaning.

End builder.

(* ===================================================================== *)
(** ** The helpers as the specification describes them *)
(* ===================================================================== *)

Module spec.

Import constants.

(** Modelled from the spec: [utility.ToConfig] is not among the sources;
    the solution configuration key is ["<Configuration>|<Platform>"]. *)
Definition ToConfig (configuration platform : string) : string :=
  configuration +:+ "|" +:+ platform.

Definition lowerAscii (a : Ascii.ascii) : Ascii.ascii :=
  let n := Ascii.nat_of_ascii a in
  if Nat.leb 65 n && Nat.leb n 90 then Ascii.ascii_of_nat (n + 32) else a.

Fixpoint toLower (s : string) : string :=
  match s with
  | EmptyString => EmptyString
  | String a s => String (lowerAscii a) (toLower s)
  end.

(** Modelled from the spec: [isPlatformAnyCPU] is not among the sources;
    the platform string is the wildcard ["AnyCPU"], compared without
    regard to (ASCII) letter case. *)
Definition isPlatformAnyCPU (platform : string) : bool :=
  bool_decide (toLower platform = toLower "AnyCPU").

(** Modelled from the spec: [isProjectTypeAllowed] is not among the
    sources; the type is present in the whitelist. *)
Definition isProjectTypeAllowed (t : ProjectType)
    (whitelist : list ProjectType) : bool :=
  bool_decide (t ∈ whitelist).

(** Modelled from the spec: [isArchitectureArchiveable] is not among the
    sources; the list is non-empty and does not consist solely of
    simulator architectures, taken here to be [i386] and [x86_64]. *)
Definition isArchitectureArchiveable (archs : list string) : bool :=
  negb (forallb (fun a => bool_decide (a ∈ ["i386"; "x86_64"])) archs).

End spec.

(* ===================================================================== *)
(** ** Scenarios *)
(* ===================================================================== *)

Module scenario.

Import constants buildtool builder.

(** Helpers for the scenarios: those of [spec]; every solution
    configuration is valid; the file system holds one archive per
    assembly name, one [.apk] per package, and nothing else. *)
Definition helpers : Helpers := {|
  ToConfig := spec.ToConfig;
  validateSolutionConfig := fun _ _ _ => None;
  isProjectTypeAllowed := spec.isProjectTypeAllowed;
  isArchitectureArchiveable := spec.isArchitectureArchiveable;
  isPlatformAnyCPU := spec.isPlatformAnyCPU;
  exportLatestXCArchiveFromXcodeArchives := fun assemblyName =>
    Ok ("/Archives/" +:+ assemblyName +:+ ".xcarchive");
  exportLatestIpa := fun _ _ => Ok "";
  exportAppDSYM := fun _ _ => Ok "";
  exportApp := fun _ _ => Ok "";
  exportPKG := fun _ _ => Ok "";
  androidPackageName := fun _ => Ok "com.example.app";
  exportApk := fun outputDir packageName =>
    Ok (outputDir +:+ "/" +:+ packageName +:+ ".apk")
|}.

Definition hasTarget (t : string) (cmd : RunnableCommand) : bool :=
  bool_decide (action (identity cmd) = Some t).

(** A machine for the scenarios: the world is the list of commands run so
    far; every command succeeds except an mdtool [archive]. *)
Definition machine : Machine := {|
  World := list RunnableCommand;
  Run := fun cmd w =>
    (if hasTarget "archive" cmd then Some "exit status 1" else None,
     w ++ [cmd])
|}.

Definition start : @Pass machine :=
  @Build_Pass machine (@nil RunnableCommand) [].

Definition release : project.ConfigurationPlatformModel := {|
  project.Configuration := "Release";
  project.Platform := "iPhone";
  project.OutputDir := "bin/iPhone/Release";
  project.SignAndroid := false;
  project.MtouchArchs := ["arm64"]
|}.

Definition releaseAndroid : project.ConfigurationPlatformModel := {|
  project.Configuration := "Release";
  project.Platform := "AnyCPU";
  project.OutputDir := "bin/Release";
  project.SignAndroid := true;
  project.MtouchArchs := []
|}.

Definition mkProject (name : string) (t : ProjectType) (outputType : string)
    (androidApplication : bool)
    (configs : gmap string project.ConfigurationPlatformModel)
    : project.Model := {|
  project.Name := name;
  project.Pth := name +:+ "/" +:+ name +:+ ".csproj";
  project.ProjectType := t;
  project.OutputType := outputType;
  project.AssemblyName := name;
  project.ManifestPth := name +:+ "/Properties/AndroidManifest.xml";
  project.AndroidApplication := androidApplication;
  project.ConfigMap := {[ "Release|iPhone" := "Release|iPhone" ]};
  project.Configs := configs
|}.

Definition iosApp : project.Model :=
  mkProject "App.iOS" ProjectTypeIOS "exe" false
    {[ "Release|iPhone" := release ]}.

Definition iosWidget : project.Model :=
  mkProject "Widget.iOS" ProjectTypeIOS "exe" false
    {[ "Release|iPhone" := release ]}.

Definition tvApp : project.Model :=
  mkProject "App.tvOS" ProjectTypeTvOS "exe" false
    {[ "Release|iPhone" := release ]}.

Definition macApp : project.Model :=
  mkProject "App.Mac" ProjectTypeMacOS "exe" false
    {[ "Release|iPhone" := release ]}.

Definition macLibrary : project.Model :=
  mkProject "Lib.Mac" ProjectTypeMacOS "library" false
    {[ "Release|iPhone" := release ]}.

Definition androidApp : project.Model :=
  mkProject "App.Droid" ProjectTypeAndroid "library" true
    {[ "Release|iPhone" := releaseAndroid ]}.

Definition iosUnconfigured : project.Model :=
  mkProject "Broken.iOS" ProjectTypeIOS "exe" false ∅.

Definition unknownProject : project.Model :=
  mkProject "Shared" ProjectTypeUnknown "library" false
    {[ "Release|iPhone" := release ]}.

Definition mkBuilder (projs : list project.Model) (forceMDTool : bool)
    : builder.Model := {|
  solution := {|
    solution.Pth := "App.sln";
    solution.ProjectMap := map (fun proj => (project.Name proj, proj)) projs
  |};
  projectTypeWhitelist :=
    [ProjectTypeIOS; ProjectTypeTvOS; ProjectTypeMacOS; ProjectTypeAndroid;
     ProjectTypeUnknown];
  builder.forceMDTool := forceMDTool
|}.

(** Two iOS application projects of one solution, built with xbuild. *)
Definition twoIOSApps : builder.Model := mkBuilder [iosApp; iosWidget] false.

(** The command planned for either of them. *)
Definition xbuildRelease : RunnableCommand :=
  XBuild (xbuild.New "App.sln"
          |> xbuild.SetTarget "Build"
          |> xbuild.SetConfiguration "Release"
          |> xbuild.SetPlatform "iPhone"
          |> xbuild.SetBuildIpa true
          |> xbuild.SetArchiveOnBuild true).

(** One macOS and one iOS application, built with mdtool: the macOS
    [archive] fails on the scenario machine. *)
Definition macThenIOSForced : builder.Model :=
  mkBuilder [macApp; iosApp] true.

(** A solution with every kind of project. *)
Definition mixed : builder.Model :=
  mkBuilder [iosApp; macLibrary; iosUnconfigured; unknownProject; macApp;
             androidApp] false.

(** What [CollectOutput] finds for [mixed] on the scenario file system. *)
Definition collected : gmap ProjectType (gmap OutputType string) :=
  {[ ProjectTypeIOS := {[ OutputTypeXCArchive := "/Archives/App.iOS.xcarchive" ]};
     ProjectTypeAndroid := {[ OutputTypeAPK := "bin/Release/com.example.app.apk" ]} ]}.

(** A callback that leaves the world alone. *)
Definition quietCallback : @BuildCommandCallback machine :=
  fun _ _ _ w => w.

(** Projects that [buildableProjects] turns away. *)
Definition androidLibrary : project.Model :=
  mkProject "Bindings.Droid" ProjectTypeAndroid "library" false
    {[ "Release|iPhone" := releaseAndroid ]}.

Definition iosLibrary : project.Model :=
  mkProject "Core.iOS" ProjectTypeIOS "library" false
    {[ "Release|iPhone" := release ]}.

Definition withLibraries : builder.Model :=
  mkBuilder [iosApp; iosLibrary; androidLibrary; androidApp] false.

(** Helpers that differ from [helpers] in one probe: the Android
    manifest cannot be read. *)
Definition unreadableManifest : Helpers := {|
  ToConfig := spec.ToConfig;
  validateSolutionConfig := fun _ _ _ => None;
  isProjectTypeAllowed := spec.isProjectTypeAllowed;
  isArchitectureArchiveable := spec.isArchitectureArchiveable;
  isPlatformAnyCPU := spec.isPlatformAnyCPU;
  exportLatestXCArchiveFromXcodeArchives := fun assemblyName =>
    Ok ("/Archives/" +:+ assemblyName +:+ ".xcarchive");
  exportLatestIpa := fun _ _ => Ok "";
  exportAppDSYM := fun _ _ => Ok "";
  exportApp := fun _ _ => Ok "";
  exportPKG := fun _ _ => Ok "";
  androidPackageName := fun _ => Fail "manifest unreadable";
  exportApk := fun outputDir packageName =>
    Ok (outputDir +:+ "/" +:+ packageName +:+ ".apk")
|}.

(** The slash, character 47. *)
Definition slash : Ascii.ascii := Ascii.ascii_of_nat 47.

(** The part of a slash-separated path before its last element. *)
Fixpoint beforeLastSlash (pth : string) : option string :=
  match pth with
  | EmptyString => None
  | String c rest =>
      match beforeLastSlash rest with
      | Some dir => Some (String c dir)
      | None => if Ascii.eqb c slash then Some EmptyString else None
      end
  end.

(** A disk for the scenarios: the world is the list of the directories
    that exist; every test and every removal succeeds. *)
Definition diskOfDirs : Disk := {|
  DiskWorld := list string;
  filepath_Dir := fun pth => default "." (beforeLastSlash pth);
  filepath_Join := fun dir name => dir +:+ "/" +:+ name;
  pathutil_IsDirExists := fun pth dirs => Ok (bool_decide (pth ∈ dirs));
  os_RemoveAll := fun pth dirs => (None, filter (fun dir => dir <> pth) dirs)
|}.

(** A project directory that holds [bin] but not [obj]. *)
Definition onlyBin : @Sweep diskOfDirs :=
  @Build_Sweep diskOfDirs ["App.iOS/bin"; "App.iOS/Resources"] [].

(** A disk without any [bin] or [obj]. *)
Definition cleanTree : @Sweep diskOfDirs :=
  @Build_Sweep diskOfDirs ["App.iOS/Resources"] [].

Definition quietClearCallback : @ClearCommandCallback diskOfDirs :=
  fun _ _ dirs => dirs.

End scenario.

(* ===================================================================== *)
(** ** Notions used to state the properties *)
(* ===================================================================== *)

Module props.

Import constants buildtool builder.

(** The condition under which [buildableProjects] keeps a project that
    has reached its loop. *)
Definition eligible (solutionConfig : string) (proj : project.Model)
    : Prop :=
  is_Some (project.ConfigMap proj !! solutionConfig) /\
  project.ProjectType proj <> ProjectTypeUnknown /\
  (project.ProjectType proj = ProjectTypeIOS \/
   project.ProjectType proj = ProjectTypeMacOS \/
   project.ProjectType proj = ProjectTypeTvOS ->
   project.OutputType proj = "exe") /\
  (project.ProjectType proj = ProjectTypeAndroid ->
   project.AndroidApplication proj = true).

(** No [Run] of this stretch of the log failed. *)
Definition noFailedRun (events : list Event) : Prop :=
  Forall (fun e => isFailedRun e = false) events.

(** This stretch of the log ends with a failed [Run], made for [proj] and
    returning [err], and holds no other failed [Run]. *)
Definition abortsAt (proj : project.Model) (err : Err)
    (events : list Event) : Prop :=
  exists pre command,
    events = pre ++ [RunCalled proj command (Some err)] /\ noFailedRun pre.

(** A call of one of the two callbacks for [proj]. *)
Definition isHookFor (proj : project.Model) (e : Event) : Prop :=
  match e with
  | PrepareCalled p _ => p = proj
  | CallbackCalled p _ _ => p = proj
  | RunCalled _ _ _ => False
  end.

(** One of these probes returned a non-empty path. *)
Definition hit (probes : list (OutputType * result string)) : Prop :=
  exists kind pth, (kind, Ok pth) ∈ probes /\ pth <> "".


(** A project of type [t] among [projs] whose configuration resolves and
    one of whose probes found something. *)
Definition foundAmong {hs : Helpers} (builder : Model) (solutionConfig : string)
    (projs : list project.Model) (t : ProjectType) : Prop :=
  exists proj projectConfigKey projectConfig,
    proj ∈ projs /\
    project.ProjectType proj = t /\
    project.ConfigMap proj !! solutionConfig = Some projectConfigKey /\
    project.Configs proj !! projectConfigKey = Some projectConfig /\
    hit (probesOf builder proj projectConfig).

(** No two commands of the list are equal. *)
Fixpoint pairwiseDistinct (commands : list RunnableCommand) : Prop :=
  match commands with
  | [] => True
  | command :: commands =>
      Forall (fun c => commandEqual command c = false) commands /\
      pairwiseDistinct commands
  end.

(** The condition under which [filteredProjects] keeps a project. *)
Definition kept {hs : Helpers} (builder : Model) (proj : project.Model)
    : Prop :=
  isProjectTypeAllowed (project.ProjectType proj)
    (projectTypeWhitelist builder) = true /\
  project.ProjectType proj <> ProjectTypeUnknown.

#[global] Instance kept_dec {hs : Helpers} builder proj :
  Decision (kept builder proj).
Proof. unfold kept. apply _. Defined.

#[global] Instance eligible_dec solutionConfig proj :
  Decision (eligible solutionConfig proj).
Proof. unfold eligible. apply _. Defined.

(** The commands [BuildAllProjects] plans for a run of projects: those
    of [prepareBuildCommands] for each project whose configuration
    resolves, in order. *)
Definition plannedFor {hs : Helpers} (builder : Model)
    (configuration platform : string) (projs : list project.Model)
    : list RunnableCommand :=
  concat
    (map (fun proj =>
            match resolvedConfig (ToConfig configuration platform) proj with
            | Some projectConfig =>
                prepareBuildCommands builder configuration platform proj
                  projectConfig
            | None => []
            end) projs).

(** The commands handed to the prepare callback, in log order. *)
Fixpoint preparedOf (events : list Event) : list RunnableCommand :=
  match events with
  | [] => []
  | PrepareCalled _ command :: events => command :: preparedOf events
  | _ :: events => preparedOf events
  end.

Definition isXBuild (command : RunnableCommand) : bool :=
  match command with
  | XBuild _ => true
  | MDTool _ => false
  end.

(** The artifact kinds [CollectOutput] can record for a project type. *)
Definition artifactKinds (builder : Model) (t : ProjectType)
    : list OutputType :=
  match t with
  | ProjectTypeIOS | ProjectTypeTvOS =>
      [OutputTypeXCArchive; OutputTypeIPA; OutputTypeDSYM]
  | ProjectTypeMacOS =>
      (if forceMDTool builder then [OutputTypeXCArchive] else [])
      ++ [OutputTypeAPP; OutputTypePKG]
  | ProjectTypeAndroid => [OutputTypeAPK]
  | ProjectTypeUnknown => []
  end.

(** The non-empty path a project's probe of one kind returned, if any. *)
Definition foundPath {hs : Helpers} (builder : Model) (proj : project.Model)
    (projectConfig : project.ConfigurationPlatformModel)
    (kind : OutputType) : option string :=
  head
    (omap (fun probe : OutputType * result string =>
             match probe.2 with
             | Ok pth =>
                 if bool_decide (probe.1 = kind /\ pth <> "")
                 then Some pth else None
             | Fail _ => None
             end)
       (probesOf builder proj projectConfig)).

(** Going through [projs] in order, the path of kind [kind] found last
    for a project of type [t], starting from [init]. *)
Definition latestFound {hs : Helpers} (builder : Model)
    (solutionConfig : string) (projs : list project.Model)
    (t : ProjectType) (kind : OutputType) (init : option string)
    : option string :=
  foldl (fun acc proj =>
           if bool_decide (project.ProjectType proj = t) then
             match resolvedConfig solutionConfig proj with
             | Some projectConfig =>
                 match foundPath builder proj projectConfig kind with
                 | Some pth => Some pth
                 | None => acc
                 end
             | None => acc
             end
           else acc) init projs.

(** The existence tests [CleanAll] has to make for a run of projects:
    for each project, [bin] and then [obj] beside the project file. *)
Definition plannedChecks {dk : Disk} (projs : list project.Model)
    : list (project.Model * string) :=
  concat
    (map (fun proj =>
            let projectDir := filepath_Dir (project.Pth proj) in
            [(proj, filepath_Join projectDir "bin");
             (proj, filepath_Join projectDir "obj")]) projs).

(** The project and the path of a call of [CleanAll]. *)
Definition cleanEventTarget (e : CleanEvent) : project.Model * string :=
  match e with
  | IsDirExistsCalled proj pth _ => (proj, pth)
  | ClearCallbackCalled proj dir => (proj, dir)
  | RemoveAllCalled proj pth _ => (proj, pth)
  end.

(** The error a call of [CleanAll] returned, if it failed. *)
Definition failedWith (e : CleanEvent) : option Err :=
  match e with
  | IsDirExistsCalled _ _ (Fail err) => Some err
  | RemoveAllCalled _ _ (Some err) => Some err
  | _ => None
  end.

(** The existence tests of a log, those that answered yes, the callback
    calls and the removals, each in log order. *)
Fixpoint checksOf (events : list CleanEvent)
    : list (project.Model * string) :=
  match events with
  | [] => []
  | IsDirExistsCalled proj pth _ :: events => (proj, pth) :: checksOf events
  | _ :: events => checksOf events
  end.

Fixpoint existingOf (events : list CleanEvent)
    : list (project.Model * string) :=
  match events with
  | [] => []
  | IsDirExistsCalled proj pth (Ok true) :: events =>
      (proj, pth) :: existingOf events
  | _ :: events => existingOf events
  end.

Fixpoint announcedOf (events : list CleanEvent)
    : list (project.Model * string) :=
  match events with
  | [] => []
  | ClearCallbackCalled proj dir :: events =>
      (proj, dir) :: announcedOf events
  | _ :: events => announcedOf events
  end.

Fixpoint removedOf (events : list CleanEvent)
    : list (project.Model * string) :=
  match events with
  | [] => []
  | RemoveAllCalled proj pth _ :: events => (proj, pth) :: removedOf events
  | _ :: events => removedOf events
  end.

(** The callback call made before a removal, when a callback is
    given. *)
Definition announcement (announce : bool) (proj : project.Model)
    (pth : string) : list CleanEvent :=
  if announce then [ClearCallbackCalled proj pth] else [].

(** [sweepOf announce todo events err]: the calls [events] are those of
    a sweep through the tests [todo] that ends with [err].  Each test is
    followed, only if it answers yes, by the callback call (when
    [announce]) and the removal of the same directory; a test or a
    removal that fails ends the sweep with its error. *)
Inductive sweepOf (announce : bool)
    : list (project.Model * string) -> list CleanEvent -> option Err -> Prop :=
| sweep_done : sweepOf announce [] [] None
| sweep_test_failed proj pth err todo :
    sweepOf announce ((proj, pth) :: todo)
      [IsDirExistsCalled proj pth (Fail err)] (Some err)
| sweep_absent proj pth todo events err :
    sweepOf announce todo events err ->
    sweepOf announce ((proj, pth) :: todo)
      (IsDirExistsCalled proj pth (Ok false) :: events) err
| sweep_removed proj pth todo events err :
    sweepOf announce todo events err ->
    sweepOf announce ((proj, pth) :: todo)
      (IsDirExistsCalled proj pth (Ok true)
       :: announcement announce proj pth
       ++ RemoveAllCalled proj pth None :: events) err
| sweep_removal_failed proj pth err todo :
    sweepOf announce ((proj, pth) :: todo)
      (IsDirExistsCalled proj pth (Ok true)
       :: announcement announce proj pth
       ++ [RemoveAllCalled proj pth (Some err)]) (Some err).

End props.

(* ===================================================================== *)
(** ** Properties of the filters *)
(* ===================================================================== *)

Import constants buildtool builder props.

Section Filtering.

Context {hs : Helpers}.

Lemma rangeProjectMap_elem builder entries projects proj :
  proj ∈ rangeProjectMap builder entries projects ->
  proj ∈ projects \/
  (proj ∈ entries.*2 /\
   project.ProjectType proj <> ProjectTypeUnknown /\
   isProjectTypeAllowed (project.ProjectType proj)
     (projectTypeWhitelist builder) = true).
Proof.
  revert projects.
  induction entries as [|[key p] entries IH]; intros projects Hin; simpl in *.
  - by left.
  - destruct (isProjectTypeAllowed (project.ProjectType p) _) eqn:Hallowed;
      simpl in Hin.
    + case_bool_decide as Hty.
      * apply IH in Hin as [Hin|(? & ? & ?)].
        -- apply elem_of_app in Hin as [Hin|Hin]; [by left|].
           apply list_elem_of_singleton in Hin as ->.
           right. split_and!; [left|done|done].
        -- right. split_and!; [by right|done|done].
      * apply IH in Hin as [Hin|(? & ? & ?)]; [by left|].
        right. split_and!; [by right|done|done].
    + apply IH in Hin as [Hin|(? & ? & ?)]; [by left|].
      right. split_and!; [by right|done|done].
Qed.

Lemma rangeFilteredProjects_elem solutionConfig filtered projects warnings
    proj :
  proj ∈ (rangeFilteredProjects solutionConfig filtered projects warnings).1 ->
  proj ∈ projects \/ (proj ∈ filtered /\ eligible solutionConfig proj).
Proof.
  revert projects warnings.
  induction filtered as [|p filtered IH]; intros projects warnings Hin;
    simpl in *.
  - by left.
  - destruct (project.ConfigMap p !! solutionConfig) as [key|] eqn:Hkey.
    2:{ apply IH in Hin as [Hin|[? ?]]; [by left|].
        right; split; [by right|done]. }
    destruct (_ && bool_decide (project.OutputType p <> "exe")) eqn:Hexe.
    { apply IH in Hin as [Hin|[? ?]]; [by left|].
      right; split; [by right|done]. }
    destruct (_ && negb (project.AndroidApplication p)) eqn:Handroid.
    { apply IH in Hin as [Hin|[? ?]]; [by left|].
      right; split; [by right|done]. }
    case_bool_decide as Hty.
    2:{ apply IH in Hin as [Hin|[? ?]]; [by left|].
        right; split; [by right|done]. }
    apply IH in Hin as [Hin|[? ?]].
    2:{ right; split; [by right|done]. }
    apply elem_of_app in Hin as [Hin|Hin]; [by left|].
    apply list_elem_of_singleton in Hin as ->.
    right. split; [left|].
    unfold eligible. split_and!; [by eexists|done| |].
    + intros Happle. apply dec_stable. intros Hne.
      rewrite (bool_decide_eq_true_2 _ Hne), andb_true_r in Hexe.
      by destruct (project.ProjectType p), Happle as [?|[?|?]].
    + intros Heq. rewrite Heq in Handroid. simpl in Handroid.
      by apply negb_false_iff in Handroid.
Qed.

Lemma rangeFilteredProjects_warnings_mono solutionConfig filtered projects
    warnings w :
  w ∈ warnings ->
  w ∈ (rangeFilteredProjects solutionConfig filtered projects warnings).2.
Proof.
  revert projects warnings.
  induction filtered as [|p filtered IH]; intros projects warnings Hin;
    simpl; [done|].
  repeat case_match; apply IH; set_solver.
Qed.

Lemma rangeFilteredProjects_warnOutputType solutionConfig filtered projects
    warnings proj :
  proj ∈ filtered ->
  is_Some (project.ConfigMap proj !! solutionConfig) ->
  project.ProjectType proj = ProjectTypeIOS \/
  project.ProjectType proj = ProjectTypeMacOS \/
  project.ProjectType proj = ProjectTypeTvOS ->
  project.OutputType proj <> "exe" ->
  warnOutputType proj ∈
    (rangeFilteredProjects solutionConfig filtered projects warnings).2.
Proof.
  intros Hin [key Hkey] Hty Hexe. revert projects warnings.
  induction Hin as [p filtered|p q filtered Hin IH]; intros projects warnings.
  - simpl. rewrite Hkey.
    assert ((bool_decide (project.ProjectType p = ProjectTypeIOS)
             || bool_decide (project.ProjectType p = ProjectTypeMacOS)
             || bool_decide (project.ProjectType p = ProjectTypeTvOS))
            && bool_decide (project.OutputType p <> "exe") = true) as ->.
    { rewrite (bool_decide_eq_true_2 _ Hexe), andb_true_r.
      by destruct (project.ProjectType p), Hty as [?|[?|?]]. }
    apply rangeFilteredProjects_warnings_mono, elem_of_app.
    right. apply list_elem_of_singleton. reflexivity.
  - simpl. repeat case_match; by apply IH.
Qed.

Lemma rangeFilteredProjects_warnNoConfig solutionConfig filtered projects
    warnings proj :
  proj ∈ filtered ->
  project.ConfigMap proj !! solutionConfig = None ->
  warnNoConfig proj solutionConfig ∈
    (rangeFilteredProjects solutionConfig filtered projects warnings).2.
Proof.
  intros Hin Hkey. revert projects warnings.
  induction Hin as [p filtered|p q filtered Hin IH]; intros projects warnings.
  - simpl. rewrite Hkey.
    apply rangeFilteredProjects_warnings_mono, elem_of_app.
    right. apply list_elem_of_singleton. reflexivity.
  - simpl. repeat case_match; by apply IH.
Qed.

End Filtering.

(* ===================================================================== *)
(** ** The log of a build pass *)
(* ===================================================================== *)

Section Executing.

Context {mc : Machine}.

Lemma succeededRuns_app l1 l2 :
  succeededRuns (l1 ++ l2) = succeededRuns l1 ++ succeededRuns l2.
Proof.
  induction l1 as [|[| |? ? []] l1 IH]; simpl; by rewrite ?IH.
Qed.

Lemma flagsOf_app l1 l2 : flagsOf (l1 ++ l2) = flagsOf l1 ++ flagsOf l2.
Proof. induction l1 as [|[| |] l1 IH]; simpl; by rewrite ?IH. Qed.

Lemma hooks_succeededRuns proj l :
  Forall (isHookFor proj) l -> succeededRuns l = [].
Proof. induction 1 as [|[| |] l ? ? IH]; simpl in *; done. Qed.

Lemma hooks_noFailedRun proj l : Forall (isHookFor proj) l -> noFailedRun l.
Proof. intros Hl. eapply Forall_impl; [done|]. by intros [| |]. Qed.

Lemma hooks_eventProject proj l :
  Forall (isHookFor proj) l -> Forall (fun e => eventProject e = proj) l.
Proof. intros Hl. eapply Forall_impl; [done|]. by intros [| |]. Qed.

Lemma callPrepare_log prepareCallback proj command st command' st' :
  callPrepare prepareCallback proj command st = (command', st') ->
  exists l, log st' = log st ++ l /\ Forall (isHookFor proj) l /\
            flagsOf l = [].
Proof.
  unfold callPrepare. destruct prepareCallback as [f|].
  - destruct (f _ _ _) as [edited w]. intros [= <- <-]. simpl.
    eexists; split_and!; [done| |done]. by constructor.
  - intros [= <- <-]. exists []. by rewrite app_nil_r.
Qed.

Lemma callCallback_log callback proj command flag st :
  exists l, log (callCallback callback proj command flag st) = log st ++ l /\
            Forall (isHookFor proj) l /\
            (forall c b, (c, b) ∈ flagsOf l -> c = command /\ b = flag).
Proof.
  unfold callCallback. destruct callback as [f|]; simpl.
  - eexists; split_and!; [done|by constructor|].
    intros c b Hin. simpl in Hin.
    apply list_elem_of_singleton in Hin as [= -> ->]. done.
  - exists []. rewrite app_nil_r. split_and!; [done|done|].
    intros c b Hin. simpl in Hin. by apply elem_of_nil in Hin.
Qed.

Lemma callRun_log proj command st err st' :
  callRun proj command st = (err, st') ->
  log st' = log st ++ [RunCalled proj command err].
Proof.
  unfold callRun. destruct (Run _ _) as [e w]. by intros [= <- <-].
Qed.

(** The inner loop: what it logs, what it leaves in the performed list,
    and how it ends. *)
Lemma rangeBuildCommands_log prepareCallback callback proj buildCommands :
  forall perfomedCommands st err performed' st',
    rangeBuildCommands prepareCallback callback proj buildCommands
      perfomedCommands st = (err, performed', st') ->
    exists new,
      log st' = log st ++ new /\
      Forall (fun e => eventProject e = proj) new /\
      performed' = perfomedCommands ++ succeededRuns new /\
      match err with
      | Some e => abortsAt proj e new
      | None => noFailedRun new
      end.
Proof.
  induction buildCommands as [|command buildCommands IH];
    intros performed st err performed' st' Hrun; simpl in Hrun.
  - injection Hrun as <- <- <-. exists []. rewrite !app_nil_r.
    split_and!; [done|done|done|by constructor].
  - destruct (callPrepare _ _ _ _) as [edited st1] eqn:Hprep.
    apply callPrepare_log in Hprep as (l1 & Hl1 & Hh1 & _).
    destruct (callCallback_log callback proj edited
                (BuildCommandSliceContains performed edited) st1)
      as (l2 & Hl2 & Hh2 & _).
    set (st2 := callCallback _ _ _ _ _) in *.
    pose proof (hooks_succeededRuns _ _ Hh1) as Hs1.
    pose proof (hooks_succeededRuns _ _ Hh2) as Hs2.
    pose proof (hooks_noFailedRun _ _ Hh1) as Hn1.
    pose proof (hooks_noFailedRun _ _ Hh2) as Hn2.
    pose proof (hooks_eventProject _ _ Hh1) as He1.
    pose proof (hooks_eventProject _ _ Hh2) as He2.
    destruct (BuildCommandSliceContains performed edited); simpl in Hrun.
    + apply IH in Hrun as (new & Hlog & Hproj & Hperf & Hend).
      exists (l1 ++ l2 ++ new). split_and!.
      * by rewrite Hlog, Hl2, Hl1, <- !app_assoc.
      * by repeat (apply Forall_app; split).
      * by rewrite !succeededRuns_app, Hs1, Hs2.
      * destruct err as [e|].
        -- destruct Hend as (pre & c & -> & Hpre).
           exists (l1 ++ l2 ++ pre), c. split.
           ++ by rewrite <- !app_assoc.
           ++ by repeat (apply Forall_app; split).
        -- by repeat (apply Forall_app; split).
    + destruct (callRun proj edited st2) as [[e|] st3] eqn:Hcall;
        apply callRun_log in Hcall.
      * injection Hrun as <- <- <-.
        exists (l1 ++ l2 ++ [RunCalled proj edited (Some e)]). split_and!.
        -- by rewrite Hcall, Hl2, Hl1, <- !app_assoc.
        -- repeat (apply Forall_app; split); [done|done|by constructor].
        -- rewrite !succeededRuns_app, Hs1, Hs2. simpl.
           by rewrite app_nil_r.
        -- exists (l1 ++ l2), edited. split.
           ++ by rewrite <- !app_assoc.
           ++ by repeat (apply Forall_app; split).
      * apply IH in Hrun as (new & Hlog & Hproj & Hperf & Hend).
        exists (l1 ++ l2 ++ RunCalled proj edited None :: new). split_and!.
        -- by rewrite Hlog, Hcall, Hl2, Hl1, <- !app_assoc.
        -- repeat (apply Forall_app; split); [done|done|by constructor].
        -- rewrite !succeededRuns_app, Hs1, Hs2. simpl.
           by rewrite Hperf, <- app_assoc.
        -- destruct err as [e|].
           ++ destruct Hend as (pre & c & -> & Hpre).
              exists (l1 ++ l2 ++ RunCalled proj edited None :: pre), c.
              split.
              ** by rewrite <- !app_assoc.
              ** repeat (apply Forall_app; split);
                   [done|done|by constructor].
           ++ repeat (apply Forall_app; split);
                [done|done|by constructor].
Qed.

Context {hs : Helpers}.

Lemma resolutionWarnings_cons solutionConfig proj projs :
  resolutionWarnings solutionConfig (proj :: projs)
  = resolutionWarning solutionConfig proj
    ++ resolutionWarnings solutionConfig projs.
Proof. done. Qed.

(** For a project whose configuration resolves, the loop body runs the
    commands of [prepareBuildCommands], starting from an empty performed
    list. *)
Lemma rangeBuildableProjects_plan builder configuration platform
    solutionConfig prepareCallback callback proj projs warnings st
    projectConfig :
  resolvedConfig solutionConfig proj = Some projectConfig ->
  rangeBuildableProjects builder configuration platform solutionConfig
    prepareCallback callback (proj :: projs) warnings st
  = match rangeBuildCommands prepareCallback callback proj
            (prepareBuildCommands builder configuration platform proj
               projectConfig) [] st with
    | (Some err, _, st1) => ((warnings, Some err), st1)
    | (None, _, st1) =>
        rangeBuildableProjects builder configuration platform solutionConfig
          prepareCallback callback projs warnings st1
    end.
Proof.
  unfold resolvedConfig. simpl.
  destruct (project.ConfigMap proj !! solutionConfig) as [key|]; [|done].
  by intros ->.
Qed.

(** A project the outer loop skips adds its warning and nothing else. *)
Lemma rangeBuildableProjects_skip builder configuration platform
    solutionConfig prepareCallback callback proj projs warnings st :
  resolvedConfig solutionConfig proj = None ->
  rangeBuildableProjects builder configuration platform solutionConfig
    prepareCallback callback (proj :: projs) warnings st
  = rangeBuildableProjects builder configuration platform solutionConfig
      prepareCallback callback projs
      (warnings ++ resolutionWarning solutionConfig proj) st.
Proof.
  unfold resolvedConfig, resolutionWarning. simpl.
  destruct (project.ConfigMap proj !! solutionConfig) as [key|]; [|done].
  by intros ->.
Qed.

(** The outer loop over a concatenation: the second part is entered only
    if the first ended without error, with its warnings and state. *)
Lemma rangeBuildableProjects_app builder configuration platform
    solutionConfig prepareCallback callback l1 l2 :
  forall warnings st,
    rangeBuildableProjects builder configuration platform solutionConfig
      prepareCallback callback (l1 ++ l2) warnings st
    = match rangeBuildableProjects builder configuration platform
              solutionConfig prepareCallback callback l1 warnings st with
      | ((warnings1, None), st1) =>
          rangeBuildableProjects builder configuration platform
            solutionConfig prepareCallback callback l2 warnings1 st1
      | failed => failed
      end.
Proof.
  induction l1 as [|proj l1 IH]; intros warnings st; simpl; [done|].
  destruct (project.ConfigMap proj !! solutionConfig) as [key|]; [|done].
  destruct (project.Configs proj !! key) as [projectConfig|]; [|done].
  by destruct (rangeBuildCommands _ _ _ _ _ _) as [[[e|] performed] st1].
Qed.

(** The outer loop: whose events it logs, how it ends and which warnings
    it returns. *)
Lemma rangeBuildableProjects_log builder configuration platform
    solutionConfig prepareCallback callback projs :
  forall warnings st warnings' err st',
    rangeBuildableProjects builder configuration platform solutionConfig
      prepareCallback callback projs warnings st
    = ((warnings', err), st') ->
    exists new,
      log st' = log st ++ new /\
      Forall (fun e => eventProject e ∈ projs /\
                       is_Some (resolvedConfig solutionConfig
                                  (eventProject e))) new /\
      match err with
      | Some e =>
          exists before proj after,
            projs = before ++ proj :: after /\
            abortsAt proj e new /\
            warnings' = warnings ++ resolutionWarnings solutionConfig before /\
            Forall (fun ev => eventProject ev ∈ before ++ [proj]) new
      | None =>
          noFailedRun new /\
          warnings' = warnings ++ resolutionWarnings solutionConfig projs
      end.
Proof.
  induction projs as [|proj projs IH];
    intros warnings st warnings' err st' Hrun.
  - injection Hrun as <- <- <-. exists []. rewrite !app_nil_r.
    split_and!; [done|done|by constructor|done].
  - destruct (resolvedConfig solutionConfig proj) as [projectConfig|]
      eqn:Hres.
    + unfold resolvedConfig in Hres. simpl in Hrun.
      assert (resolutionWarning solutionConfig proj = []) as Hnone.
      { unfold resolutionWarning.
        destruct (project.ConfigMap proj !! solutionConfig); [|done].
        by rewrite Hres. }
      destruct (project.ConfigMap proj !! solutionConfig) as [key|] eqn:Hkey;
        [|done].
      rewrite Hres in Hrun.
      destruct (rangeBuildCommands _ _ _ _ _ _) as [[r performed] st1]
        eqn:Hinner.
      apply rangeBuildCommands_log in Hinner
        as (new1 & Hlog1 & Hproj1 & _ & Hend1).
      assert (Forall (fun e => eventProject e ∈ proj :: projs /\
                is_Some (resolvedConfig solutionConfig (eventProject e)))
                new1) as Hall1.
      { eapply Forall_impl; [exact Hproj1|]. intros e ->. split; [left|].
        unfold resolvedConfig. rewrite Hkey, Hres. by eexists. }
      destruct r as [e|].
      * injection Hrun as <- <- <-. exists new1. split_and!; [done|done|].
        exists [], proj, projs. split_and!; [done|done| |].
        -- by rewrite app_nil_r.
        -- eapply Forall_impl; [exact Hproj1|]. intros ev ->. simpl. left.
      * apply IH in Hrun as (new & Hlog & Hall & Hend).
        exists (new1 ++ new). split_and!.
        -- by rewrite Hlog, Hlog1, <- app_assoc.
        -- apply Forall_app; split; [done|].
           eapply Forall_impl; [exact Hall|]. intros ev [? ?].
           split; [by right|done].
        -- destruct err as [e|].
           ++ destruct Hend as (before & q & after & -> & Habort & -> & Hin).
              exists (proj :: before), q, after. split_and!.
              ** done.
              ** destruct Habort as (pre & c & -> & Hpre).
                 exists (new1 ++ pre), c. split.
                 --- by rewrite <- app_assoc.
                 --- by apply Forall_app.
              ** by rewrite resolutionWarnings_cons, Hnone.
              ** apply Forall_app; split.
                 --- eapply Forall_impl; [exact Hproj1|]. intros ev ->.
                     simpl. left.
                 --- eapply Forall_impl; [exact Hin|]. intros ev ?.
                     simpl. by right.
           ++ destruct Hend as [Hnf ->]. split.
              ** by apply Forall_app.
              ** by rewrite resolutionWarnings_cons, Hnone.
    + rewrite rangeBuildableProjects_skip in Hrun by done.
      apply IH in Hrun as (new & Hlog & Hall & Hend).
      exists new. split_and!; [done| |].
      * eapply Forall_impl; [exact Hall|]. intros ev [? ?].
        split; [by right|done].
      * destruct err as [e|].
        -- destruct Hend as (before & q & after & -> & Habort & -> & Hin).
           exists (proj :: before), q, after. split_and!; [done|done| |].
           ++ by rewrite resolutionWarnings_cons, <- app_assoc.
           ++ eapply Forall_impl; [exact Hin|]. intros ev ?.
              simpl. by right.
        -- destruct Hend as [Hnf ->]. split; [done|].
           by rewrite resolutionWarnings_cons, <- app_assoc.
Qed.

End Executing.

(* ===================================================================== *)
(** ** The command planner *)
(* ===================================================================== *)

Section Planning.

Context {hs : Helpers}.

(** C3.  For an iOS or tvOS project, when [forceMDTool] is false, the
    planner emits exactly one command: an xbuild [Build] on the solution
    path, with the configuration and platform the caller asked for; its
    build-ipa flag and its archive-on-build flag are both set when the
    architectures of the project configuration are archiveable, and
    neither is set otherwise. *)
Theorem C3_ios_xbuild_single_command builder configuration platform proj
    projectConfig :
  project.ProjectType proj = ProjectTypeIOS \/
  project.ProjectType proj = ProjectTypeTvOS ->
  forceMDTool builder = false ->
  exists command,
    prepareBuildCommands builder configuration platform proj projectConfig
    = [XBuild command] /\
    xbuild.projectPth command = solution.Pth (solution builder) /\
    xbuild.target command = Some "Build" /\
    xbuild.configuration command = Some configuration /\
    xbuild.platform command = Some platform /\
    xbuild.buildIpa command
    = isArchitectureArchiveable (project.MtouchArchs projectConfig) /\
    xbuild.archiveOnBuild command
    = isArchitectureArchiveable (project.MtouchArchs projectConfig).
Proof.
  intros Hty Hforce. unfold prepareBuildCommands. rewrite Hforce.
  destruct Hty as [-> | ->];
    (eexists; split; [reflexivity|]);
    by destruct (isArchitectureArchiveable _).
Qed.

(** The wildcard test of [spec], on some platform strings. *)
Example isPlatformAnyCPU_examples :
  spec.isPlatformAnyCPU "AnyCPU" = true /\
  spec.isPlatformAnyCPU "anycpu" = true /\
  spec.isPlatformAnyCPU "ANYCPU" = true /\
  spec.isPlatformAnyCPU "Any CPU" = false /\
  spec.isPlatformAnyCPU "x86" = false /\
  spec.isPlatformAnyCPU "" = false.
Proof. by vm_compute. Qed.

(** C4.  For an Android project the planner emits exactly one command: an
    xbuild on the project's own path, whose target is
    [SignAndroidPackage] when the project configuration asks for signing
    and [PackageForAndroid] otherwise, whose configuration is the
    project's own, and whose platform is set, to the project's own, exactly
    when [isPlatformAnyCPU] rejects it.  With [isPlatformAnyCPU] taken as
    the specification describes it, that is exactly when the platform
    string differs from ["AnyCPU"] beyond letter case. *)
Theorem C4_android_single_command builder configuration platform proj
    projectConfig :
  (forall s, isPlatformAnyCPU s = spec.isPlatformAnyCPU s) ->
  project.ProjectType proj = ProjectTypeAndroid ->
  exists command,
    prepareBuildCommands builder configuration platform proj projectConfig
    = [XBuild command] /\
    xbuild.projectPth command = project.Pth proj /\
    xbuild.target command
    = Some (if project.SignAndroid projectConfig
            then "SignAndroidPackage" else "PackageForAndroid") /\
    xbuild.configuration command
    = Some (project.Configuration projectConfig) /\
    xbuild.platform command
    = (if isPlatformAnyCPU (project.Platform projectConfig)
       then None else Some (project.Platform projectConfig)) /\
    (xbuild.platform command = None <->
     spec.toLower (project.Platform projectConfig) = "anycpu").
Proof.
  intros Hany Hty. unfold prepareBuildCommands. rewrite Hty.
  eexists; split; [reflexivity|].
  rewrite Hany. unfold spec.isPlatformAnyCPU.
  change (spec.toLower "AnyCPU") with "anycpu".
  destruct (project.SignAndroid projectConfig);
    case_bool_decide as Hp; simpl; split_and!; try done;
    split; done.
Qed.

(** C5.  For a macOS project, when [forceMDTool] is true, the planner
    emits exactly two commands, an mdtool [build] and then an mdtool
    [archive], both on the solution path with the project's own
    configuration, platform and name; the architecture list plays no
    part. *)
Theorem C5_macos_mdtool_build_and_archive builder configuration platform
    proj projectConfig :
  project.ProjectType proj = ProjectTypeMacOS ->
  forceMDTool builder = true ->
  exists build archive,
    prepareBuildCommands builder configuration platform proj projectConfig
    = [MDTool build; MDTool archive] /\
    mdtool.target build = Some "build" /\
    mdtool.target archive = Some "archive" /\
    Forall (fun command =>
      mdtool.solutionPth command = solution.Pth (solution builder) /\
      mdtool.configuration command
      = Some (project.Configuration projectConfig) /\
      mdtool.platform command = Some (project.Platform projectConfig) /\
      mdtool.projectName command = Some (project.Name proj))
      [build; archive].
Proof.
  intros Hty Hforce. unfold prepareBuildCommands. rewrite Hty, Hforce.
  do 2 eexists. split; [reflexivity|]. split_and!; [done|done|].
  by repeat constructor.
Qed.

(** C6.  For an iOS or tvOS project, when [forceMDTool] is true, the
    planner emits an mdtool [build] with the project's own configuration,
    platform and name, followed by an mdtool [archive] with the same
    configuration, platform and name exactly when the architectures of
    the project configuration are archiveable, and by nothing
    otherwise. *)
Theorem C6_ios_mdtool_archive_if_archiveable builder configuration platform
    proj projectConfig :
  project.ProjectType proj = ProjectTypeIOS \/
  project.ProjectType proj = ProjectTypeTvOS ->
  forceMDTool builder = true ->
  exists build archive,
    prepareBuildCommands builder configuration platform proj projectConfig
    = MDTool build
      :: (if isArchitectureArchiveable (project.MtouchArchs projectConfig)
          then [MDTool archive] else []) /\
    mdtool.target build = Some "build" /\
    mdtool.target archive = Some "archive" /\
    Forall (fun command =>
      mdtool.solutionPth command = solution.Pth (solution builder) /\
      mdtool.configuration command
      = Some (project.Configuration projectConfig) /\
      mdtool.platform command = Some (project.Platform projectConfig) /\
      mdtool.projectName command = Some (project.Name proj))
      [build; archive].
Proof.
  intros Hty Hforce. unfold prepareBuildCommands. rewrite Hforce.
  destruct Hty as [-> | ->];
    (do 2 eexists; split;
     [by destruct (isArchitectureArchiveable _)|];
     split_and!; [done|done|]; by repeat constructor).
Qed.

End Planning.

(* ===================================================================== *)
(** ** The build pass *)
(* ===================================================================== *)

Section Pass.

Context {mc : Machine} {hs : Helpers}.

Lemma filteredProjects_not_unknown builder proj :
  proj ∈ filteredProjects builder ->
  project.ProjectType proj <> ProjectTypeUnknown.
Proof.
  intros Hin. apply rangeProjectMap_elem in Hin as [Hin|(_ & Hty & _)].
  - by apply elem_of_nil in Hin.
  - done.
Qed.

Lemma buildableProjects_elem builder configuration platform proj :
  proj ∈ (buildableProjects builder configuration platform).1 ->
  proj ∈ filteredProjects builder /\
  eligible (ToConfig configuration platform) proj.
Proof.
  intros Hin. apply rangeFilteredProjects_elem in Hin as [Hin|Hin].
  - by apply elem_of_nil in Hin.
  - done.
Qed.

(** [BuildAllProjects]: whose events it logs, how it ends and which
    warnings it returns. *)
Lemma BuildAllProjects_log builder configuration platform prepareCallback
    callback st warnings' err st' :
  BuildAllProjects builder configuration platform prepareCallback callback st
  = ((warnings', err), st') ->
  let buildable := buildableProjects builder configuration platform in
  let solutionConfig := ToConfig configuration platform in
  exists new,
    log st' = log st ++ new /\
    Forall (fun e => eventProject e ∈ buildable.1 /\
                     is_Some (resolvedConfig solutionConfig
                                (eventProject e))) new /\
    match err with
    | Some e =>
        (validateSolutionConfig (solution builder) configuration platform
         = Some e /\ new = [] /\ warnings' = []) \/
        (validateSolutionConfig (solution builder) configuration platform
         = None /\
         exists before proj after,
           buildable.1 = before ++ proj :: after /\
           abortsAt proj e new /\
           warnings'
           = buildable.2 ++ resolutionWarnings solutionConfig before /\
           Forall (fun ev => eventProject ev ∈ before ++ [proj]) new)
    | None =>
        noFailedRun new /\
        warnings' = buildable.2 ++ resolutionWarnings solutionConfig buildable.1
    end.
Proof.
  intros Hrun buildable solutionConfig. unfold BuildAllProjects in Hrun.
  destruct (validateSolutionConfig _ _ _) as [e|] eqn:Hvalid.
  { injection Hrun as <- <- <-. exists []. rewrite app_nil_r.
    split_and!; [done|done|]. by left. }
  fold buildable in Hrun. fold solutionConfig in Hrun.
  destruct buildable as [projs warnings]. simpl.
  case_bool_decide as Hlen.
  - injection Hrun as <- <- <-. exists []. rewrite app_nil_r.
    destruct projs; [|done].
    split_and!; [done|done|by constructor|by rewrite app_nil_r].
  - apply rangeBuildableProjects_log in Hrun as (new & Hlog & Hall & Hend).
    exists new. split_and!; [done|done|].
    destruct err as [e|]; [right; by split|done].
Qed.

Lemma noFailedRun_has_no_failure pre proj command e post :
  noFailedRun (pre ++ RunCalled proj command (Some e) :: post) -> False.
Proof.
  intros Hnone. apply Forall_app in Hnone as [_ Hnone].
  apply Forall_cons in Hnone as [Hfailed _]. done.
Qed.

(** In a stretch of the log that ends with the one failed [Run], a failed
    [Run] is that last call. *)
Lemma abortsAt_failure_is_last proj0 e0 new pre proj command e post :
  abortsAt proj0 e0 new ->
  new = pre ++ RunCalled proj command (Some e) :: post ->
  post = [] /\ e0 = e.
Proof.
  intros (pre0 & command0 & -> & Hnone) Heq.
  destruct post as [|ev post _] using rev_ind.
  - apply app_inj_tail in Heq as [_ [= _ _ ->]]. done.
  - rewrite app_comm_cons, app_assoc in Heq.
    apply app_inj_tail in Heq as [-> _].
    by apply noFailedRun_has_no_failure in Hnone.
Qed.

(** C2.  Leaving the loop over a project's commands, the performed list
    is the list at entry followed by exactly the commands whose [Run]
    returned without error, in the order they were run; a command whose
    [Run] failed is not added.  A [Run] that fails is the last call the
    loop makes, and the loop returns its error; a loop that returns no
    error has made no failed [Run].  The same holds of the whole pass:
    whenever a [Run] fails, it is the last call [BuildAllProjects] makes,
    for any command or project, and [BuildAllProjects] returns its error;
    when [BuildAllProjects] returns no error, no [Run] has failed.  With
    the error it returns the warnings of [buildableProjects] followed by
    those the loop added for the projects before the failing one, and
    every call of the pass was made for the failing project or one before
    it; without an error it returns the warnings of [buildableProjects]
    followed by those the loop added for all buildable projects. *)
Theorem C2_performed_after_success_and_abort_on_failure :
  (forall prepareCallback callback proj buildCommands perfomedCommands st
          err performed' st',
     rangeBuildCommands prepareCallback callback proj buildCommands
       perfomedCommands st = (err, performed', st') ->
     exists new,
       log st' = log st ++ new /\
       performed' = perfomedCommands ++ succeededRuns new /\
       match err with
       | Some e => abortsAt proj e new
       | None => noFailedRun new
       end /\
       (forall pre p command e post,
          new = pre ++ RunCalled p command (Some e) :: post ->
          post = [] /\ err = Some e)) /\
  (forall builder configuration platform prepareCallback callback st
          warnings' err st',
     BuildAllProjects builder configuration platform prepareCallback
       callback st = ((warnings', err), st') ->
     validateSolutionConfig (solution builder) configuration platform
     = None ->
     exists new,
       log st' = log st ++ new /\
       (forall pre p command e post,
          new = pre ++ RunCalled p command (Some e) :: post ->
          post = [] /\ err = Some e) /\
       match err with
       | Some e =>
           exists before proj after,
             (buildableProjects builder configuration platform).1
             = before ++ proj :: after /\
             abortsAt proj e new /\
             Forall (fun ev => eventProject ev ∈ before ++ [proj]) new /\
             warnings'
             = (buildableProjects builder configuration platform).2
               ++ resolutionWarnings (ToConfig configuration platform)
                    before
       | None =>
           noFailedRun new /\
           warnings'
           = (buildableProjects builder configuration platform).2
             ++ resolutionWarnings (ToConfig configuration platform)
                  (buildableProjects builder configuration platform).1
       end).
Proof.
  split.
  - intros prepareCallback callback proj buildCommands performed st err
      performed' st' Hrun.
    apply rangeBuildCommands_log in Hrun as (new & Hlog & _ & Hperf & Hend).
    exists new. split_and!; [done|done|done|].
    intros pre p command e post Hsplit. destruct err as [e0|].
    + destruct (abortsAt_failure_is_last _ _ _ _ _ _ _ _ Hend Hsplit)
        as [-> ->]. done.
    + rewrite Hsplit in Hend.
      by apply noFailedRun_has_no_failure in Hend.
  - intros builder configuration platform prepareCallback callback st
      warnings' err st' Hrun Hvalid.
    apply BuildAllProjects_log in Hrun as (new & Hlog & _ & Hend).
    exists new. split; [done|]. destruct err as [e0|].
    + destruct Hend
        as [[Hbad _]|[_ (before & proj & after & Hsplit & Habort & Hw & Hin)]];
        [congruence|].
      split.
      * intros pre p command e post Hnew.
        destruct (abortsAt_failure_is_last _ _ _ _ _ _ _ _ Habort Hnew)
          as [-> ->]. done.
      * by exists before, proj, after.
    + destruct Hend as [Hnone Hw]. split; [|done].
      intros pre p command e post Hnew. rewrite Hnew in Hnone.
      by apply noFailedRun_has_no_failure in Hnone.
Qed.

(** C7.  A project whose type is [ProjectTypeUnknown] is in neither the
    result of [filteredProjects] nor that of [buildableProjects]; the
    planner has no command for it; and no call that [BuildAllProjects]
    makes, to a callback or to [Run], is made for it. *)
Theorem C7_unknown_projects_excluded builder configuration platform proj :
  project.ProjectType proj = ProjectTypeUnknown ->
  (proj ∉ filteredProjects builder) /\
  (proj ∉ (buildableProjects builder configuration platform).1) /\
  (forall projectConfig,
     prepareBuildCommands builder configuration platform proj projectConfig
     = []) /\
  (forall prepareCallback callback st,
     exists new,
       log (BuildAllProjects builder configuration platform prepareCallback
              callback st).2 = log st ++ new /\
       Forall (fun e => eventProject e <> proj) new).
Proof.
  intros Hty. split_and!.
  - intros Hin. by apply filteredProjects_not_unknown in Hin.
  - intros Hin. apply buildableProjects_elem in Hin as [Hin _].
    by apply filteredProjects_not_unknown in Hin.
  - intros projectConfig. unfold prepareBuildCommands. by rewrite Hty.
  - intros prepareCallback callback st.
    destruct (BuildAllProjects _ _ _ _ _ _) as [[warnings' err] st'] eqn:Hrun.
    apply BuildAllProjects_log in Hrun as (new & Hlog & Hall & _).
    exists new. split; [done|].
    eapply Forall_impl; [exact Hall|]. intros e [Hin _] Heq.
    rewrite Heq in Hin. apply buildableProjects_elem in Hin as [Hin _].
    by apply filteredProjects_not_unknown in Hin.
Qed.

(** C9.  Let a buildable project have an entry for the solution
    configuration in its [ConfigMap] but none in [Configs] under the key
    it names.  Once the loop of [BuildAllProjects] has passed the projects
    before it without error, the pass goes on with the projects after it
    from the same state, with one warning added for it; that warning is
    among the warnings returned; and no call of the pass, to a callback or
    to [Run], is made for that project. *)
Theorem C9_missing_project_configuration_skipped builder configuration
    platform prepareCallback callback st proj projectConfigKey before after
    warnings1 st1 :
  let solutionConfig := ToConfig configuration platform in
  let buildable := buildableProjects builder configuration platform in
  let pass := BuildAllProjects builder configuration platform
                prepareCallback callback st in
  project.ConfigMap proj !! solutionConfig = Some projectConfigKey ->
  project.Configs proj !! projectConfigKey = None ->
  validateSolutionConfig (solution builder) configuration platform = None ->
  buildable.1 = before ++ proj :: after ->
  rangeBuildableProjects builder configuration platform solutionConfig
    prepareCallback callback before buildable.2 st
  = ((warnings1, None), st1) ->
  pass = rangeBuildableProjects builder configuration platform solutionConfig
           prepareCallback callback after
           (warnings1 ++ [warnNoProjectConfiguration proj solutionConfig])
           st1 /\
  (warnNoProjectConfiguration proj solutionConfig ∈ pass.1.1) /\
  exists new,
    log pass.2 = log st ++ new /\
    Forall (fun e => eventProject e <> proj) new.
Proof.
  intros solutionConfig buildable pass Hkey Hconfigs Hvalid Hsplit Hbefore.
  assert (resolvedConfig solutionConfig proj = None) as Hres.
  { unfold resolvedConfig. by rewrite Hkey. }
  assert (resolutionWarning solutionConfig proj
          = [warnNoProjectConfiguration proj solutionConfig]) as Hwarn.
  { unfold resolutionWarning. by rewrite Hkey, Hconfigs. }
  assert (pass = rangeBuildableProjects builder configuration platform
                   solutionConfig prepareCallback callback after
                   (warnings1
                    ++ [warnNoProjectConfiguration proj solutionConfig])
                   st1) as Hpass.
  { unfold pass, BuildAllProjects. rewrite Hvalid.
    fold buildable. fold solutionConfig.
    destruct buildable as [projs warnings]. simpl in *. subst projs.
    rewrite bool_decide_eq_false_2
      by (rewrite length_app; simpl; lia).
    rewrite rangeBuildableProjects_app, Hbefore.
    by rewrite rangeBuildableProjects_skip, Hwarn. }
  split_and!.
  - done.
  - rewrite Hpass.
    destruct (rangeBuildableProjects _ _ _ _ _ _ after _ _)
      as [[warnings' err] st'] eqn:Hafter.
    apply rangeBuildableProjects_log in Hafter as (new & _ & _ & Hend).
    simpl. destruct err as [e|].
    + destruct Hend as (? & ? & ? & _ & _ & -> & _). set_solver.
    + destruct Hend as [_ ->]. set_solver.
  - destruct pass as [[warnings' err] st'] eqn:Hrun.
    apply BuildAllProjects_log in Hrun as (new & Hlog & Hall & _).
    exists new. split; [done|].
    eapply Forall_impl; [exact Hall|]. intros e [_ [cfg Hcfg]] Heq.
    rewrite Heq in Hcfg. fold solutionConfig in Hcfg. congruence.
Qed.

(** C10.  A macOS project whose output type is not ["exe"] is never in
    the result of [buildableProjects].  When it is among the filtered
    projects, the loop of [buildableProjects] emits a warning for it: the
    warning of the output type test when the project has an entry for the
    solution configuration, so that it reaches that test, and the warning
    of the missing entry otherwise. *)
Theorem C10_macos_needs_exe_output builder configuration platform proj :
  project.ProjectType proj = ProjectTypeMacOS ->
  project.OutputType proj <> "exe" ->
  let solutionConfig := ToConfig configuration platform in
  let buildable := buildableProjects builder configuration platform in
  (proj ∉ buildable.1) /\
  (proj ∈ filteredProjects builder ->
   is_Some (project.ConfigMap proj !! solutionConfig) ->
   warnOutputType proj ∈ buildable.2) /\
  (proj ∈ filteredProjects builder ->
   project.ConfigMap proj !! solutionConfig = None ->
   warnNoConfig proj solutionConfig ∈ buildable.2).
Proof.
  intros Hty Hexe solutionConfig buildable. split_and!.
  - intros Hin. apply buildableProjects_elem in Hin as [_ Hel].
    destruct Hel as (_ & _ & Hneeds & _). apply Hexe, Hneeds. by right; left.
  - intros Hin Hkey. unfold buildable, buildableProjects.
    apply rangeFilteredProjects_warnOutputType; [done|done| |done].
    by right; left.
  - intros Hin Hkey. unfold buildable, buildableProjects.
    by apply rangeFilteredProjects_warnNoConfig.
Qed.

End Pass.

(* ===================================================================== *)
(** ** Artifact collection *)
(* ===================================================================== *)

Section Collecting.

Context {hs : Helpers}.

Lemma putFound_nonempty kind pth (m : gmap OutputType string) :
  putFound kind pth m <> ∅ <-> m <> ∅ \/ pth <> "".
Proof.
  unfold putFound. case_bool_decide as Hpth.
  - split; [by right|]. intros _. apply insert_non_empty.
  - split; [by left|]. intros [?|?]; [done|]. by destruct Hpth.
Qed.

Lemma hit_nil : ~ hit [].
Proof. intros (? & ? & Hin & _). by apply elem_of_nil in Hin. Qed.

Lemma hit_cons kind r probes :
  hit ((kind, r) :: probes)
  <-> (exists pth, r = Ok pth /\ pth <> "") \/ hit probes.
Proof.
  split.
  - intros (k & pth & Hin & Hne). apply elem_of_cons in Hin as [[= -> <-]|Hin].
    + left. by exists pth.
    + right. by exists k, pth.
  - intros [(pth & -> & Hne)|(k & pth & Hin & Hne)].
    + exists kind, pth. split; [left|done].
    + exists k, pth. split; [by right|done].
Qed.

Lemma hit_cons_Ok kind pth probes :
  hit ((kind, Ok pth) :: probes) <-> pth <> "" \/ hit probes.
Proof.
  rewrite hit_cons. split.
  - intros [(? & [= <-] & ?)|?]; [by left|by right].
  - intros [?|?]; [left; by eexists|by right].
Qed.

(** The probes of one project leave its map non-empty exactly when it
    was non-empty before or one of them found something. *)
Lemma probeProject_nonempty builder proj projectConfig m m' :
  probeProject builder proj projectConfig m = Ok m' ->
  (m' <> ∅ <-> m <> ∅ \/ hit (probesOf builder proj projectConfig)).
Proof.
  unfold probeProject, probesOf.
  destruct (project.ProjectType proj); simpl.
  - intros [= <-]. pose proof hit_nil. tauto.
  - destruct (exportLatestXCArchiveFromXcodeArchives _); [|done].
    destruct (exportLatestIpa _ _); [|done].
    destruct (exportAppDSYM _ _); [|done]. simpl.
    intros [= <-]. rewrite !hit_cons_Ok, !putFound_nonempty.
    pose proof hit_nil. tauto.
  - destruct (exportLatestXCArchiveFromXcodeArchives _); [|done].
    destruct (exportLatestIpa _ _); [|done].
    destruct (exportAppDSYM _ _); [|done]. simpl.
    intros [= <-]. rewrite !hit_cons_Ok, !putFound_nonempty.
    pose proof hit_nil. tauto.
  - destruct (forceMDTool builder); simpl.
    + destruct (exportLatestXCArchiveFromXcodeArchives _); [|done].
      destruct (exportApp _ _); [|done].
      destruct (exportPKG _ _); [|done]. simpl.
      intros [= <-]. rewrite !hit_cons_Ok, !putFound_nonempty.
      pose proof hit_nil. tauto.
    + destruct (exportApp _ _); [|done].
      destruct (exportPKG _ _); [|done]. simpl.
      intros [= <-]. rewrite !hit_cons_Ok, !putFound_nonempty.
      pose proof hit_nil. tauto.
  - destruct (androidPackageName _); [|done]. simpl.
    destruct (exportApk _ _); [|done]. simpl.
    intros [= <-]. rewrite !hit_cons_Ok, !putFound_nonempty.
    pose proof hit_nil. tauto.
Qed.

Lemma foundAmong_cons builder solutionConfig proj projs t :
  foundAmong builder solutionConfig (proj :: projs) t
  <-> foundAmong builder solutionConfig [proj] t \/
      foundAmong builder solutionConfig projs t.
Proof.
  split.
  - intros (q & key & cfg & Hin & ?).
    apply elem_of_cons in Hin as [->|Hin].
    + left. exists proj, key, cfg. split; [left|done].
    + right. by exists q, key, cfg.
  - intros [(q & key & cfg & Hin & ?)|(q & key & cfg & Hin & ?)].
    + apply list_elem_of_singleton in Hin as ->.
      exists proj, key, cfg. split; [left|done].
    + exists q, key, cfg. split; [by right|done].
Qed.

Lemma foundAmong_unresolved builder solutionConfig proj t :
  resolvedConfig solutionConfig proj = None ->
  ~ foundAmong builder solutionConfig [proj] t.
Proof.
  unfold resolvedConfig. intros Hres (q & key & cfg & Hin & _ & Hkey & Hcfg & _).
  apply list_elem_of_singleton in Hin as ->.
  rewrite Hkey in Hres. congruence.
Qed.

Lemma foundAmong_resolved builder solutionConfig proj key cfg t :
  project.ConfigMap proj !! solutionConfig = Some key ->
  project.Configs proj !! key = Some cfg ->
  foundAmong builder solutionConfig [proj] t
  <-> project.ProjectType proj = t /\ hit (probesOf builder proj cfg).
Proof.
  intros Hkey Hcfg. split.
  - intros (q & key' & cfg' & Hin & Hty & Hkey' & Hcfg' & Hhit).
    apply list_elem_of_singleton in Hin as ->.
    assert (key' = key) as -> by congruence.
    assert (cfg' = cfg) as -> by congruence. done.
  - intros [Hty Hhit]. exists proj, key, cfg.
    split_and!; [left|done..].
Qed.

(** The loop of [CollectOutput]: it keeps every inner map non-empty, and
    gains exactly the keys for which a probe found something. *)
Lemma rangeCollect_keys builder solutionConfig projs :
  forall (outputMap outputMap' : OutputMap),
    rangeCollect builder solutionConfig projs outputMap
    = (outputMap', None) ->
    (forall t m, outputMap !! t = Some m -> m <> ∅) ->
    (forall t m, outputMap' !! t = Some m -> m <> ∅) /\
    (forall t, is_Some (outputMap' !! t)
               <-> is_Some (outputMap !! t) \/
                   foundAmong builder solutionConfig projs t).
Proof.
  induction projs as [|proj projs IH]; intros om om' Hrun Hinv.
  - injection Hrun as <-. split; [done|]. intros t. split; [by left|].
    intros [?|(? & ? & ? & Hin & _)]; [done|].
    by apply elem_of_nil in Hin.
  - destruct (resolvedConfig solutionConfig proj) as [cfg|] eqn:Hres.
    2:{ assert (rangeCollect builder solutionConfig (proj :: projs) om
                = rangeCollect builder solutionConfig projs om) as Hskip.
        { unfold resolvedConfig in Hres. simpl.
          destruct (project.ConfigMap proj !! solutionConfig); [|done].
          by rewrite Hres. }
        rewrite Hskip in Hrun. apply IH in Hrun as [Hinv' Hkeys]; [|done].
        split; [done|]. intros t. rewrite Hkeys, foundAmong_cons.
        pose proof (foundAmong_unresolved builder _ _ t Hres). tauto. }
    unfold resolvedConfig in Hres. simpl in Hrun.
    destruct (project.ConfigMap proj !! solutionConfig) as [key|] eqn:Hkey;
      [|done].
    rewrite Hres in Hrun.
    set (t0 := project.ProjectType proj) in *.
    destruct (om !! t0) as [m0|] eqn:Hold.
    + destruct (probeProject builder proj cfg m0) as [m1|] eqn:Hprobe;
        [|done].
      simpl in Hrun. apply probeProject_nonempty in Hprobe.
      apply IH in Hrun as [Hinv' Hkeys].
      2:{ intros t m Hm. apply lookup_insert_Some in Hm
            as [[<- <-]|[_ Hm]]; [|by eapply Hinv].
          apply Hprobe. left. by eapply Hinv. }
      split; [done|]. intros t.
      rewrite Hkeys, foundAmong_cons, lookup_insert_is_Some.
      rewrite (foundAmong_resolved builder _ _ _ _ t Hkey Hres).
      fold t0. destruct (decide (t0 = t)) as [<-|Hne].
      * rewrite Hold. split; [left; by eexists|].
        intros _. left. by left.
      * tauto.
    + destruct (probeProject builder proj cfg ∅) as [m1|] eqn:Hprobe;
        [|done].
      simpl in Hrun. apply probeProject_nonempty in Hprobe.
      assert (0 < size m1 <-> hit (probesOf builder proj cfg)) as Hsize.
      { rewrite <- Nat.neq_0_lt_0, map_size_non_empty_iff, Hprobe. tauto. }
      case_bool_decide as Hfound.
      * apply IH in Hrun as [Hinv' Hkeys].
        2:{ intros t m Hm. apply lookup_insert_Some in Hm
              as [[<- <-]|[_ Hm]]; [|by eapply Hinv].
            apply Hprobe. right. by apply Hsize. }
        split; [done|]. intros t.
        rewrite Hkeys, foundAmong_cons, lookup_insert_is_Some.
        rewrite (foundAmong_resolved builder _ _ _ _ t Hkey Hres).
        fold t0. apply Hsize in Hfound.
        destruct (decide (t0 = t)) as [<-|Hne]; tauto.
      * apply IH in Hrun as [Hinv' Hkeys]; [|done].
        split; [done|]. intros t.
        rewrite Hkeys, foundAmong_cons.
        rewrite (foundAmong_resolved builder _ _ _ _ t Hkey Hres).
        tauto.
Qed.

(** C8.  When [CollectOutput] returns without error, a project type is a
    key of the returned map exactly when some artifact probe made for a
    buildable project of that type returned a non-empty path; and no key
    is mapped to an empty artifact map. *)
Theorem C8_output_map_keys_iff_probe_found builder configuration platform
    (outputMap : OutputMap) :
  CollectOutput builder configuration platform = (outputMap, None) ->
  (forall t, is_Some (outputMap !! t)
             <-> probeFound builder configuration platform t) /\
  (forall t m, outputMap !! t = Some m -> m <> ∅).
Proof.
  unfold CollectOutput, probeFound.
  destruct (buildableProjects builder configuration platform)
    as [projs warnings]. simpl.
  intros Hrun. apply rangeCollect_keys in Hrun as [Hinv Hkeys].
  2:{ intros t m Hm. by rewrite lookup_empty in Hm. }
  split; [|done]. intros t. rewrite Hkeys, lookup_empty. split.
  - intros [[? ?]|(proj & key & cfg & ? & ? & ? & ? & kind & pth & ? & ?)];
      [done|].
    by exists proj, key, cfg, kind, pth.
  - intros (proj & key & cfg & kind & pth & ? & ? & ? & ? & ? & ?).
    right. exists proj, key, cfg. split_and!; [done..|].
    by exists kind, pth.
Qed.

End Collecting.

(* ===================================================================== *)
(** ** The scope of the performed list *)
(* ===================================================================== *)

Section Deduplication.

Context {mc : Machine} {hs : Helpers}.

Lemma BuildCommandSliceContains_snoc performed command c :
  BuildCommandSliceContains (performed ++ [command]) c
  = BuildCommandSliceContains performed c || commandEqual command c.
Proof.
  unfold BuildCommandSliceContains. rewrite existsb_app. simpl.
  by rewrite orb_false_r.
Qed.

(** Commands that differ from each other and from every performed one are
    all reported as not yet performed, when no prepare callback edits
    them. *)
Lemma rangeBuildCommands_flags_false callback proj buildCommands :
  forall perfomedCommands st err performed' st',
    pairwiseDistinct buildCommands ->
    Forall (fun c => BuildCommandSliceContains perfomedCommands c = false)
      buildCommands ->
    rangeBuildCommands None callback proj buildCommands perfomedCommands st
    = (err, performed', st') ->
    exists new,
      log st' = log st ++ new /\
      Forall (fun flagged => flagged.2 = false) (flagsOf new).
Proof.
  induction buildCommands as [|command buildCommands IH];
    intros performed st err performed' st' Hdistinct Hfresh Hrun;
    simpl in Hrun.
  - injection Hrun as <- <- <-. exists []. by rewrite app_nil_r.
  - destruct Hdistinct as [Hhead Hdistinct].
    apply Forall_cons in Hfresh as [Hcommand Hfresh].
    rewrite Hcommand in Hrun. simpl in Hrun.
    destruct (callCallback_log callback proj command false st)
      as (l & Hl & _ & Hflags).
    assert (Forall (fun flagged => flagged.2 = false) (flagsOf l)) as Hl'.
    { apply Forall_forall. intros [c b] Hin.
      by apply Hflags in Hin as [_ ->]. }
    set (st1 := callCallback _ _ _ _ _) in *.
    destruct (callRun proj command st1) as [[e|] st2] eqn:Hcall;
      apply callRun_log in Hcall.
    + injection Hrun as <- <- <-.
      exists (l ++ [RunCalled proj command (Some e)]). split.
      * by rewrite Hcall, Hl, <- app_assoc.
      * rewrite flagsOf_app. simpl. by rewrite app_nil_r.
    + apply IH in Hrun as (new & Hlog & Hnew); [|done|].
      * exists (l ++ RunCalled proj command None :: new). split.
        -- by rewrite Hlog, Hcall, Hl, <- !app_assoc.
        -- rewrite flagsOf_app. simpl. by apply Forall_app.
      * apply Forall_forall. intros c Hin.
        rewrite BuildCommandSliceContains_snoc.
        rewrite Forall_forall in Hfresh. rewrite (Hfresh c Hin).
        rewrite Forall_forall in Hhead. by rewrite (Hhead c Hin).
Qed.

(** The commands planned for one project differ from each other. *)
Lemma prepareBuildCommands_distinct builder configuration platform proj
    projectConfig :
  pairwiseDistinct
    (prepareBuildCommands builder configuration platform proj projectConfig).
Proof.
  unfold prepareBuildCommands.
  destruct (project.ProjectType proj), (forceMDTool builder);
    try destruct (isArchitectureArchiveable _); simpl;
    repeat split; try by constructor.
  all: constructor; [|by constructor].
  all: unfold commandEqual; apply bool_decide_eq_false; by intros [=].
Qed.

Lemma rangeBuildableProjects_flags_false builder configuration platform
    solutionConfig callback projs :
  forall warnings st warnings' err st',
    rangeBuildableProjects builder configuration platform solutionConfig
      None callback projs warnings st = ((warnings', err), st') ->
    exists new,
      log st' = log st ++ new /\
      Forall (fun flagged => flagged.2 = false) (flagsOf new).
Proof.
  induction projs as [|proj projs IH];
    intros warnings st warnings' err st' Hrun; simpl in Hrun.
  - injection Hrun as <- <- <-. exists []. by rewrite app_nil_r.
  - destruct (project.ConfigMap proj !! solutionConfig) as [key|];
      [|by eapply IH].
    destruct (project.Configs proj !! key) as [projectConfig|];
      [|by eapply IH].
    destruct (rangeBuildCommands _ _ _ _ _ _) as [[r performed] st1]
      eqn:Hinner.
    apply rangeBuildCommands_flags_false in Hinner as (new1 & Hlog1 & Hnew1).
    2:{ apply prepareBuildCommands_distinct. }
    2:{ by apply Forall_forall. }
    destruct r as [e|].
    + injection Hrun as <- <- <-. by exists new1.
    + apply IH in Hrun as (new & Hlog & Hnew).
      exists (new1 ++ new). split.
      * by rewrite Hlog, Hlog1, <- app_assoc.
      * rewrite flagsOf_app. by apply Forall_app.
Qed.

(** As the code stands, with [perfomedCommands] declared inside the loop
    over the projects, the callback is never told that a command was
    already performed, whatever the solution (no prepare callback
    given). *)
Lemma alreadyPerformed_never_reported builder configuration platform
    callback st :
  exists new,
    log (BuildAllProjects builder configuration platform None callback st).2
    = log st ++ new /\
    Forall (fun flagged => flagged.2 = false) (flagsOf new).
Proof.
  unfold BuildAllProjects.
  destruct (validateSolutionConfig _ _ _).
  { exists []. by rewrite app_nil_r. }
  destruct (buildableProjects _ _ _) as [projs warnings].
  case_bool_decide.
  { exists []. by rewrite app_nil_r. }
  destruct (rangeBuildableProjects _ _ _ _ _ _ _ _ _)
    as [[warnings' err] st'] eqn:Hrun.
  by apply rangeBuildableProjects_flags_false in Hrun.
Qed.

End Deduplication.

(** C1.  Two iOS application projects of one solution, built with xbuild
    for [Release|iPhone]: both plans consist of the same command on the
    solution, equal under the command equality.  The pass ends without
    error; the callback is told [alreadyPerformed = false] for the first
    project and again for the second; and [Run] is called twice on the
    command, once for each project. *)
Theorem C1_performed_list_is_reset_for_each_project :
  let pass :=
    @BuildAllProjects scenario.machine scenario.helpers scenario.twoIOSApps
      "Release" "iPhone" None (Some scenario.quietCallback) scenario.start in
  pass.1 = ([], None) /\
  commandEqual scenario.xbuildRelease scenario.xbuildRelease = true /\
  log pass.2
  = [CallbackCalled scenario.iosApp scenario.xbuildRelease false;
     RunCalled scenario.iosApp scenario.xbuildRelease None;
     CallbackCalled scenario.iosWidget scenario.xbuildRelease false;
     RunCalled scenario.iosWidget scenario.xbuildRelease None] /\
  length (runsOf (log pass.2)) = 2.
Proof. vm_compute. by repeat split. Qed.

(* ===================================================================== *)
(** ** The theorems at the scenarios *)
(* ===================================================================== *)

(** Scenario A of the specification: an iOS application with
    architecture [arm64], built with xbuild. *)
Lemma C3_witness :
  (project.ProjectType scenario.iosApp = ProjectTypeIOS \/
   project.ProjectType scenario.iosApp = ProjectTypeTvOS) /\
  forceMDTool scenario.twoIOSApps = false /\
  exists command,
    @prepareBuildCommands scenario.helpers scenario.twoIOSApps
      "Release" "iPhone" scenario.iosApp scenario.release
    = [XBuild command] /\
    xbuild.buildIpa command = true /\
    xbuild.archiveOnBuild command = true.
Proof.
  split; [by left|]. split; [reflexivity|].
  destruct (@C3_ios_xbuild_single_command scenario.helpers
              scenario.twoIOSApps "Release" "iPhone" scenario.iosApp
              scenario.release (or_introl eq_refl) eq_refl)
    as (command & Hplan & _ & _ & _ & _ & Hipa & Harchive).
  exists command. split; [exact Hplan|]. split; [exact Hipa|exact Harchive].
Defined.

(** Scenario C of the specification: a signed Android application whose
    platform is [AnyCPU]. *)
Lemma C4_witness :
  (forall s, @isPlatformAnyCPU scenario.helpers s
             = spec.isPlatformAnyCPU s) /\
  project.ProjectType scenario.androidApp = ProjectTypeAndroid /\
  exists command,
    @prepareBuildCommands scenario.helpers scenario.mixed
      "Release" "iPhone" scenario.androidApp scenario.releaseAndroid
    = [XBuild command] /\
    xbuild.target command = Some "SignAndroidPackage" /\
    xbuild.platform command = None.
Proof.
  split; [reflexivity|]. split; [reflexivity|].
  destruct (@C4_android_single_command scenario.helpers scenario.mixed
              "Release" "iPhone" scenario.androidApp scenario.releaseAndroid
              (fun s => eq_refl) eq_refl)
    as (command & Hplan & _ & Htarget & _ & Hplatform & _).
  exists command. split; [exact Hplan|].
  split; [exact Htarget|exact Hplatform].
Defined.

Lemma C5_witness :
  project.ProjectType scenario.macApp = ProjectTypeMacOS /\
  forceMDTool scenario.macThenIOSForced = true /\
  exists build archive,
    @prepareBuildCommands scenario.helpers scenario.macThenIOSForced
      "Release" "iPhone" scenario.macApp scenario.release
    = [MDTool build; MDTool archive] /\
    mdtool.target build = Some "build" /\
    mdtool.target archive = Some "archive".
Proof.
  split; [reflexivity|]. split; [reflexivity|].
  destruct (@C5_macos_mdtool_build_and_archive scenario.helpers
              scenario.macThenIOSForced "Release" "iPhone" scenario.macApp
              scenario.release eq_refl eq_refl)
    as (build & archive & Hplan & Hbuild & Harchive & _).
  exists build, archive. split; [exact Hplan|].
  split; [exact Hbuild|exact Harchive].
Defined.

Lemma C6_witness :
  (project.ProjectType scenario.iosApp = ProjectTypeIOS \/
   project.ProjectType scenario.iosApp = ProjectTypeTvOS) /\
  forceMDTool scenario.macThenIOSForced = true /\
  exists build archive,
    @prepareBuildCommands scenario.helpers scenario.macThenIOSForced
      "Release" "iPhone" scenario.iosApp scenario.release
    = [MDTool build; MDTool archive] /\
    mdtool.target build = Some "build" /\
    mdtool.target archive = Some "archive".
Proof.
  split; [by left|]. split; [reflexivity|].
  destruct (@C6_ios_mdtool_archive_if_archiveable scenario.helpers
              scenario.macThenIOSForced "Release" "iPhone" scenario.iosApp
              scenario.release (or_introl eq_refl) eq_refl)
    as (build & archive & Hplan & Hbuild & Harchive & _).
  exists build, archive. split; [exact Hplan|].
  split; [exact Hbuild|exact Harchive].
Defined.

(** A macOS application built with mdtool, whose [archive] fails, before
    an iOS application that is then never reached. *)
Lemma C2_witness :
  let inner :=
    @rangeBuildCommands scenario.machine None None scenario.macApp
      (@prepareBuildCommands scenario.helpers scenario.macThenIOSForced
         "Release" "iPhone" scenario.macApp scenario.release)
      [] scenario.start in
  let pass :=
    @BuildAllProjects scenario.machine scenario.helpers
      scenario.macThenIOSForced "Release" "iPhone" None
      (Some scenario.quietCallback) scenario.start in
  (inner = (Some "exit status 1", inner.1.2, inner.2) /\
   exists new,
     log inner.2 = log scenario.start ++ new /\
     inner.1.2 = [] ++ succeededRuns new /\
     abortsAt scenario.macApp "exit status 1" new) /\
  (pass = (([], Some "exit status 1"), pass.2) /\
   @validateSolutionConfig scenario.helpers
     (solution scenario.macThenIOSForced) "Release" "iPhone" = None /\
   exists new before proj after,
     log pass.2 = log scenario.start ++ new /\
     (forall pre p command e post,
        new = pre ++ RunCalled p command (Some e) :: post ->
        post = [] /\ Some "exit status 1" = Some e) /\
     (@buildableProjects scenario.helpers scenario.macThenIOSForced
        "Release" "iPhone").1 = before ++ proj :: after /\
     abortsAt proj "exit status 1" new /\
     Forall (fun ev => eventProject ev ∈ before ++ [proj]) new /\
     [] = (@buildableProjects scenario.helpers scenario.macThenIOSForced
             "Release" "iPhone").2
          ++ resolutionWarnings
               (@ToConfig scenario.helpers "Release" "iPhone") before).
Proof.
  intros inner pass.
  assert (inner = (Some "exit status 1", inner.1.2, inner.2)) as Hinner
    by (vm_compute; reflexivity).
  assert (pass = (([], Some "exit status 1"), pass.2)) as Hpass
    by (vm_compute; reflexivity).
  split; (split; [assumption|]).
  - destruct (proj1 (@C2_performed_after_success_and_abort_on_failure
                       scenario.machine scenario.helpers)
                _ _ _ _ _ _ _ _ _ Hinner)
      as (new & Hlog & Hperformed & Habort & _).
    exists new. split; [exact Hlog|]. split; [exact Hperformed|exact Habort].
  - split; [reflexivity|].
    destruct (proj2 (@C2_performed_after_success_and_abort_on_failure
                       scenario.machine scenario.helpers)
                _ _ _ _ _ _ _ _ _ Hpass eq_refl)
      as (new & Hlog & Hlast & before & proj & after & Hsplit & Habort
          & Hin & Hwarnings).
    exists new, before, proj, after.
    split; [exact Hlog|]. split; [exact Hlast|]. split; [exact Hsplit|].
    split; [exact Habort|]. split; [exact Hin|exact Hwarnings].
Defined.

Lemma C7_witness :
  project.ProjectType scenario.unknownProject = ProjectTypeUnknown /\
  (scenario.unknownProject ∉ @filteredProjects scenario.helpers scenario.mixed)
  /\
  (scenario.unknownProject
   ∉ (@buildableProjects scenario.helpers scenario.mixed
        "Release" "iPhone").1).
Proof.
  split; [reflexivity|].
  destruct (@C7_unknown_projects_excluded scenario.machine scenario.helpers
              scenario.mixed "Release" "iPhone" scenario.unknownProject
              eq_refl) as (Hfiltered & Hbuildable & _).
  split; [exact Hfiltered|exact Hbuildable].
Defined.

Lemma C8_witness :
  @CollectOutput scenario.helpers scenario.mixed "Release" "iPhone"
  = (scenario.collected, None) /\
  (forall t, is_Some (scenario.collected !! t)
             <-> @probeFound scenario.helpers scenario.mixed
                   "Release" "iPhone" t) /\
  (forall t m, scenario.collected !! t = Some m -> m <> ∅).
Proof.
  assert (@CollectOutput scenario.helpers scenario.mixed "Release" "iPhone"
          = (scenario.collected, None)) as Hrun
    by (vm_compute; reflexivity).
  split; [exact Hrun|].
  exact (@C8_output_map_keys_iff_probe_found scenario.helpers scenario.mixed
           "Release" "iPhone" scenario.collected Hrun).
Defined.

(** In [mixed] the buildable projects are the iOS application, the iOS
    project without configuration, the macOS application and the Android
    application, in this order. *)
Lemma C9_witness :
  let solutionConfig := @ToConfig scenario.helpers "Release" "iPhone" in
  let buildable :=
    @buildableProjects scenario.helpers scenario.mixed "Release" "iPhone" in
  let before :=
    @rangeBuildableProjects scenario.machine scenario.helpers scenario.mixed
      "Release" "iPhone" solutionConfig None None [scenario.iosApp]
      buildable.2 scenario.start in
  let pass :=
    @BuildAllProjects scenario.machine scenario.helpers scenario.mixed
      "Release" "iPhone" None None scenario.start in
  project.ConfigMap scenario.iosUnconfigured !! solutionConfig
  = Some "Release|iPhone" /\
  project.Configs scenario.iosUnconfigured !! "Release|iPhone" = None /\
  buildable.1
  = [scenario.iosApp]
    ++ scenario.iosUnconfigured :: [scenario.macApp; scenario.androidApp] /\
  before = ((before.1.1, None), before.2) /\
  (warnNoProjectConfiguration scenario.iosUnconfigured solutionConfig
   ∈ pass.1.1) /\
  length (runsOf (log pass.2)) = 3.
Proof.
  intros solutionConfig buildable before pass.
  assert (before = ((before.1.1, None), before.2)) as Hbefore
    by (vm_compute; reflexivity).
  assert (buildable.1
          = [scenario.iosApp]
            ++ scenario.iosUnconfigured
               :: [scenario.macApp; scenario.androidApp]) as Hsplit
    by (vm_compute; reflexivity).
  split; [reflexivity|]. split; [reflexivity|].
  split; [exact Hsplit|]. split; [exact Hbefore|].
  destruct (@C9_missing_project_configuration_skipped scenario.machine
              scenario.helpers scenario.mixed "Release" "iPhone" None None
              scenario.start scenario.iosUnconfigured "Release|iPhone"
              [scenario.iosApp] [scenario.macApp; scenario.androidApp]
              before.1.1 before.2 eq_refl eq_refl eq_refl Hsplit Hbefore)
    as (_ & Hwarning & _).
  split; [exact Hwarning|]. vm_compute. reflexivity.
Defined.

Lemma C10_witness :
  project.ProjectType scenario.macLibrary = ProjectTypeMacOS /\
  project.OutputType scenario.macLibrary <> "exe" /\
  (scenario.macLibrary
   ∉ (@buildableProjects scenario.helpers scenario.mixed
        "Release" "iPhone").1) /\
  (warnOutputType scenario.macLibrary
   ∈ (@buildableProjects scenario.helpers scenario.mixed
        "Release" "iPhone").2).
Proof.
  assert (project.OutputType scenario.macLibrary <> "exe") as Hexe
    by discriminate.
  split; [reflexivity|]. split; [exact Hexe|].
  destruct (@C10_macos_needs_exe_output scenario.helpers scenario.mixed
              "Release" "iPhone" scenario.macLibrary eq_refl Hexe)
    as (Hout & Hwarn & _).
  split; [exact Hout|]. apply Hwarn.
  - vm_compute. do 1 constructor. constructor.
  - eexists. vm_compute. reflexivity.
Defined.

(* ===================================================================== *)
(** ** More on the filters *)
(* ===================================================================== *)

Section FilteringMore.

Context {hs : Helpers}.

Lemma rangeProjectMap_filter builder entries projects :
  rangeProjectMap builder entries projects
  = projects ++ filter (kept builder) entries.*2.
Proof.
  revert projects.
  induction entries as [|[key proj] entries IH]; intros projects; simpl.
  - by rewrite app_nil_r.
  - rewrite filter_cons.
    destruct (decide (kept builder proj)) as [[Hallowed Hty]|Hnot].
    + rewrite Hallowed. simpl. rewrite (bool_decide_eq_true_2 _ Hty).
      by rewrite IH, <- app_assoc.
    + destruct (isProjectTypeAllowed (project.ProjectType proj) _)
        eqn:Hallowed; simpl; [|apply IH].
      case_bool_decide as Hty; [|apply IH]. by destruct Hnot.
Qed.

(** X1.  [filteredProjects] returns the projects of the solution whose
    type the whitelist allows and is not [ProjectTypeUnknown], each as
    often as the range visits it and in the order of the range. *)
Theorem filteredProjects_is_filter builder :
  filteredProjects builder
  = filter (kept builder) (solution.ProjectMap (solution builder)).*2.
Proof. unfold filteredProjects. by rewrite rangeProjectMap_filter. Qed.

Lemma guards_eligible solutionConfig proj key :
  project.ConfigMap proj !! solutionConfig = Some key ->
  (bool_decide (project.ProjectType proj = ProjectTypeIOS)
   || bool_decide (project.ProjectType proj = ProjectTypeMacOS)
   || bool_decide (project.ProjectType proj = ProjectTypeTvOS))
  && bool_decide (project.OutputType proj <> "exe") = false ->
  bool_decide (project.ProjectType proj = ProjectTypeAndroid)
  && negb (project.AndroidApplication proj) = false ->
  project.ProjectType proj <> ProjectTypeUnknown ->
  eligible solutionConfig proj.
Proof.
  intros Hkey Hexe Handroid Hty. unfold eligible.
  split_and!; [by eexists|done| |].
  - intros Happle. apply dec_stable. intros Hne.
    rewrite (bool_decide_eq_true_2 _ Hne), andb_true_r in Hexe.
    by destruct (project.ProjectType proj), Happle as [?|[?|?]].
  - intros Heq. rewrite Heq in Handroid. simpl in Handroid.
    by apply negb_false_iff in Handroid.
Qed.

Lemma rangeFilteredProjects_filter solutionConfig filtered projects
    warnings :
  (rangeFilteredProjects solutionConfig filtered projects warnings).1
  = projects ++ filter (eligible solutionConfig) filtered.
Proof.
  revert projects warnings.
  induction filtered as [|proj filtered IH]; intros projects warnings; simpl.
  - by rewrite app_nil_r.
  - rewrite filter_cons.
    destruct (project.ConfigMap proj !! solutionConfig) as [key|] eqn:Hkey.
    2:{ rewrite decide_False; [apply IH|].
        intros [[? Hsome] _]. congruence. }
    destruct (_ && bool_decide (project.OutputType proj <> "exe")) eqn:Hexe.
    { rewrite decide_False; [apply IH|].
      intros (_ & _ & Hneeds & _).
      apply andb_true_iff in Hexe as [Happle Hne].
      apply bool_decide_eq_true in Hne. apply Hne, Hneeds.
      destruct (project.ProjectType proj); simpl in Happle; try done;
        auto. }
    destruct (_ && negb (project.AndroidApplication proj)) eqn:Handroid.
    { rewrite decide_False; [apply IH|].
      intros (_ & _ & _ & Hneeds).
      apply andb_true_iff in Handroid as [Hty Happ].
      apply bool_decide_eq_true in Hty. rewrite (Hneeds Hty) in Happ. done. }
    destruct (decide (project.ProjectType proj <> ProjectTypeUnknown))
      as [Hty|Hty].
    + rewrite (bool_decide_eq_true_2 _ Hty).
      rewrite decide_True by (by apply (guards_eligible _ _ key)).
      by rewrite IH, <- app_assoc.
    + rewrite (bool_decide_eq_false_2 _ Hty).
      rewrite decide_False; [apply IH|]. by intros (_ & ? & _).
Qed.

(** X2.  [buildableProjects] returns, in the order of the filtered
    projects, exactly those that have an entry for the solution
    configuration, are of a known type, are executables when of an Apple
    type, and are application projects when of the Android type. *)
Theorem buildableProjects_is_filter builder configuration platform :
  (buildableProjects builder configuration platform).1
  = filter (eligible (ToConfig configuration platform))
      (filteredProjects builder).
Proof. unfold buildableProjects. by rewrite rangeFilteredProjects_filter. Qed.

Lemma rangeFilteredProjects_count solutionConfig filtered :
  forall projects warnings,
    Forall (fun proj => project.ProjectType proj <> ProjectTypeUnknown)
      filtered ->
    let r := rangeFilteredProjects solutionConfig filtered projects warnings
    in length r.1 + length r.2
       = length projects + length warnings + length filtered.
Proof.
  induction filtered as [|proj filtered IH]; intros projects warnings Hknown;
    simpl.
  - lia.
  - apply Forall_cons in Hknown as [Hty Hknown].
    rewrite (bool_decide_eq_true_2 _ Hty).
    repeat case_match; rewrite IH by done; rewrite ?length_app; simpl; lia.
Qed.

(** X3.  Every filtered project is either returned by
    [buildableProjects] or accounted for by exactly one warning: the two
    results together are as long as the list of filtered projects. *)
Theorem buildableProjects_one_warning_per_excluded builder configuration
    platform :
  let buildable := buildableProjects builder configuration platform in
  length buildable.1 + length buildable.2
  = length (filteredProjects builder).
Proof.
  unfold buildableProjects.
  apply (rangeFilteredProjects_count _ _ [] []).
  unfold filteredProjects. rewrite rangeProjectMap_filter. simpl.
  apply Forall_forall. intros proj Hin.
  by apply list_elem_of_filter in Hin as [[_ ?] _].
Qed.

End FilteringMore.

Section EligibilityRules.

Context {hs : Helpers}.

Lemma rangeFilteredProjects_warnNotAndroidApplication solutionConfig
    filtered projects warnings proj :
  proj ∈ filtered ->
  is_Some (project.ConfigMap proj !! solutionConfig) ->
  project.ProjectType proj = ProjectTypeAndroid ->
  project.AndroidApplication proj = false ->
  warnNotAndroidApplication proj ∈
    (rangeFilteredProjects solutionConfig filtered projects warnings).2.
Proof.
  intros Hin [key Hkey] Hty Happ. revert projects warnings.
  induction Hin as [p filtered|p q filtered Hin IH]; intros projects warnings.
  - simpl. rewrite Hkey, Hty, Happ. simpl.
    apply rangeFilteredProjects_warnings_mono, elem_of_app.
    right. apply list_elem_of_singleton. reflexivity.
  - simpl. repeat case_match; by apply IH.
Qed.

(** X4.  An Android project that is not an application project is never
    returned by [buildableProjects]; when it is among the filtered
    projects and has an entry for the solution configuration, the
    warning that it is not an Android application is emitted for it. *)
Theorem android_non_application_excluded builder configuration platform
    proj :
  project.ProjectType proj = ProjectTypeAndroid ->
  project.AndroidApplication proj = false ->
  let buildable := buildableProjects builder configuration platform in
  (proj ∉ buildable.1) /\
  (proj ∈ filteredProjects builder ->
   is_Some (project.ConfigMap proj !! ToConfig configuration platform) ->
   warnNotAndroidApplication proj ∈ buildable.2).
Proof.
  intros Hty Happ buildable. split.
  - intros Hin. apply buildableProjects_elem in Hin as [_ Hel].
    destruct Hel as (_ & _ & _ & Hneeds). rewrite (Hneeds Hty) in Happ. done.
  - intros Hin Hkey. unfold buildable, buildableProjects.
    by apply rangeFilteredProjects_warnNotAndroidApplication.
Qed.

(** X5.  An iOS or tvOS project whose output type is not ["exe"] is
    never returned by [buildableProjects]; when it is among the filtered
    projects and has an entry for the solution configuration, the
    warning of the output type test is emitted for it. *)
Theorem ios_tvos_needs_exe_output builder configuration platform proj :
  project.ProjectType proj = ProjectTypeIOS \/
  project.ProjectType proj = ProjectTypeTvOS ->
  project.OutputType proj <> "exe" ->
  let buildable := buildableProjects builder configuration platform in
  (proj ∉ buildable.1) /\
  (proj ∈ filteredProjects builder ->
   is_Some (project.ConfigMap proj !! ToConfig configuration platform) ->
   warnOutputType proj ∈ buildable.2).
Proof.
  intros Hty Hexe buildable. split.
  - intros Hin. apply buildableProjects_elem in Hin as [_ Hel].
    destruct Hel as (_ & _ & Hneeds & _). apply Hexe, Hneeds.
    destruct Hty; auto.
  - intros Hin Hkey. unfold buildable, buildableProjects.
    apply rangeFilteredProjects_warnOutputType; [done|done| |done].
    destruct Hty; auto.
Qed.

(** X6.  A project without an entry for the requested solution
    configuration in its [ConfigMap] is never returned by
    [buildableProjects], whatever its type; when it is among the
    filtered projects, the warning of the missing entry is emitted for
    it. *)
Theorem unmapped_project_excluded builder configuration platform proj :
  project.ConfigMap proj !! ToConfig configuration platform = None ->
  let buildable := buildableProjects builder configuration platform in
  (proj ∉ buildable.1) /\
  (proj ∈ filteredProjects builder ->
   warnNoConfig proj (ToConfig configuration platform) ∈ buildable.2).
Proof.
  intros Hkey buildable. split.
  - intros Hin. apply buildableProjects_elem in Hin as [_ Hel].
    destruct Hel as ([key Hsome] & _). congruence.
  - intros Hin. unfold buildable, buildableProjects.
    by apply rangeFilteredProjects_warnNoConfig.
Qed.

End EligibilityRules.

(* ===================================================================== *)
(** ** More on the command planner *)
(* ===================================================================== *)

Section PlanningMore.

Context {hs : Helpers}.

(** X7.  For a macOS project, when [forceMDTool] is false, the planner
    emits exactly one command: an xbuild [Build] on the solution path
    with the configuration and platform the caller asked for, with
    archive-on-build set and build-ipa not set, whatever the
    architectures of the project configuration. *)
Theorem macos_xbuild_single_command builder configuration platform proj
    projectConfig :
  project.ProjectType proj = ProjectTypeMacOS ->
  forceMDTool builder = false ->
  exists command,
    prepareBuildCommands builder configuration platform proj projectConfig
    = [XBuild command] /\
    xbuild.projectPth command = solution.Pth (solution builder) /\
    xbuild.target command = Some "Build" /\
    xbuild.configuration command = Some configuration /\
    xbuild.platform command = Some platform /\
    xbuild.archiveOnBuild command = true /\
    xbuild.buildIpa command = false.
Proof.
  intros Hty Hforce. unfold prepareBuildCommands. rewrite Hty, Hforce.
  eexists. split; [reflexivity|]. by split_and!.
Qed.

(** X8.  The choice of tool: when [forceMDTool] is false, or the project
    is an Android project, every planned command is an xbuild command;
    when [forceMDTool] is true and the project is not an Android
    project, every planned command is an mdtool command. *)
Theorem planned_tool builder configuration platform proj projectConfig :
  let plan :=
    prepareBuildCommands builder configuration platform proj projectConfig
  in
  (forceMDTool builder = false \/
   project.ProjectType proj = ProjectTypeAndroid ->
   Forall (fun command => isXBuild command = true) plan) /\
  (forceMDTool builder = true ->
   project.ProjectType proj <> ProjectTypeAndroid ->
   Forall (fun command => isXBuild command = false) plan).
Proof.
  unfold prepareBuildCommands. split.
  - intros [Hforce|Hty].
    + rewrite Hforce. destruct (project.ProjectType proj); simpl;
        by repeat constructor.
    + rewrite Hty. simpl. by repeat constructor.
  - intros Hforce Hty. rewrite Hforce.
    destruct (project.ProjectType proj); simpl; try done;
      try destruct (isArchitectureArchiveable _); by repeat constructor.
Qed.

(** X9.  The number of commands planned for a project: none for an
    unknown type, one for an Android project, and for the Apple types one
    with xbuild; with mdtool, two for macOS, and for iOS and tvOS two
    when the architectures are archiveable and one otherwise. *)
Theorem planned_count builder configuration platform proj projectConfig :
  length
    (prepareBuildCommands builder configuration platform proj projectConfig)
  = match project.ProjectType proj with
    | ProjectTypeUnknown => 0
    | ProjectTypeAndroid => 1
    | ProjectTypeMacOS => if forceMDTool builder then 2 else 1
    | ProjectTypeIOS | ProjectTypeTvOS =>
        if forceMDTool builder
           && isArchitectureArchiveable (project.MtouchArchs projectConfig)
        then 2 else 1
    end.
Proof.
  unfold prepareBuildCommands.
  destruct (project.ProjectType proj), (forceMDTool builder);
    try destruct (isArchitectureArchiveable _); reflexivity.
Qed.

End PlanningMore.

(* ===================================================================== *)
(** ** More on the build pass *)
(* ===================================================================== *)

Section PassMore.

Context {mc : Machine} {hs : Helpers}.

Lemma runsOf_app l1 l2 : runsOf (l1 ++ l2) = runsOf l1 ++ runsOf l2.
Proof. induction l1 as [|[| |] l1 IH]; simpl; by rewrite ?IH. Qed.

Lemma preparedOf_app l1 l2 :
  preparedOf (l1 ++ l2) = preparedOf l1 ++ preparedOf l2.
Proof. induction l1 as [|[| |] l1 IH]; simpl; by rewrite ?IH. Qed.

Lemma hooks_runsOf proj l : Forall (isHookFor proj) l -> runsOf l = [].
Proof. induction 1 as [|[| |] l ? ? IH]; simpl in *; done. Qed.

(** The commands not yet performed, as the callback was told. *)
Local Abbreviation unflagged events :=
  (filter (fun flagged : RunnableCommand * bool => flagged.2 = false)
     (flagsOf events)).

Lemma rangeBuildCommands_runs prepareCallback f proj buildCommands :
  forall perfomedCommands st err performed' st',
    rangeBuildCommands prepareCallback (Some f) proj buildCommands
      perfomedCommands st = (err, performed', st') ->
    exists new,
      log st' = log st ++ new /\
      (runsOf new).*1 = (unflagged new).*1.
Proof.
  induction buildCommands as [|command buildCommands IH];
    intros performed st err performed' st' Hrun; simpl in Hrun.
  - injection Hrun as <- <- <-. exists []. by rewrite app_nil_r.
  - destruct (callPrepare _ _ _ _) as [edited st1] eqn:Hprep.
    apply callPrepare_log in Hprep as (l1 & Hl1 & Hh1 & Hf1).
    pose proof (hooks_runsOf _ _ Hh1) as Hr1.
    unfold callCallback in Hrun.
    destruct (BuildCommandSliceContains performed edited); simpl in Hrun.
    + apply IH in Hrun as (new & Hlog & Hnew). simpl in Hlog.
      exists (l1 ++ CallbackCalled proj edited true :: new). split.
      * by rewrite Hlog, Hl1, <- !app_assoc.
      * rewrite runsOf_app, flagsOf_app, Hr1, Hf1. simpl. exact Hnew.
    + destruct (callRun proj edited _) as [[e|] st3] eqn:Hcall;
        apply callRun_log in Hcall; simpl in Hcall.
      * injection Hrun as <- <- <-.
        exists (l1 ++ [CallbackCalled proj edited false;
                       RunCalled proj edited (Some e)]). split.
        -- by rewrite Hcall, Hl1, <- !app_assoc.
        -- rewrite runsOf_app, flagsOf_app, Hr1, Hf1. reflexivity.
      * apply IH in Hrun as (new & Hlog & Hnew).
        exists (l1 ++ CallbackCalled proj edited false
                      :: RunCalled proj edited None :: new). split.
        -- by rewrite Hlog, Hcall, Hl1, <- !app_assoc.
        -- rewrite runsOf_app, flagsOf_app, Hr1, Hf1. simpl.
           f_equal. exact Hnew.
Qed.

Lemma rangeBuildableProjects_runs builder configuration platform
    solutionConfig prepareCallback f projs :
  forall warnings st warnings' err st',
    rangeBuildableProjects builder configuration platform solutionConfig
      prepareCallback (Some f) projs warnings st = ((warnings', err), st') ->
    exists new,
      log st' = log st ++ new /\
      (runsOf new).*1 = (unflagged new).*1.
Proof.
  induction projs as [|proj projs IH];
    intros warnings st warnings' err st' Hrun; simpl in Hrun.
  - injection Hrun as <- <- <-. exists []. by rewrite app_nil_r.
  - destruct (project.ConfigMap proj !! solutionConfig) as [key|];
      [|by eapply IH].
    destruct (project.Configs proj !! key) as [projectConfig|];
      [|by eapply IH].
    destruct (rangeBuildCommands _ _ _ _ _ _) as [[r performed] st1]
      eqn:Hinner.
    apply rangeBuildCommands_runs in Hinner as (new1 & Hlog1 & Hnew1).
    destruct r as [e|].
    + injection Hrun as <- <- <-. by exists new1.
    + apply IH in Hrun as (new & Hlog & Hnew).
      exists (new1 ++ new). split.
      * by rewrite Hlog, Hlog1, <- app_assoc.
      * rewrite runsOf_app, flagsOf_app, filter_app, !fmap_app.
        by rewrite Hnew1, Hnew.
Qed.

(** X10.  When a callback is given, the commands on which
    [BuildAllProjects] calls [Run] are, in order, exactly the commands
    for which the callback was told [alreadyPerformed = false]: a
    command reported as already performed is not run, and every other
    one is. *)
Theorem run_exactly_the_commands_not_performed builder configuration
    platform prepareCallback f st :
  exists new,
    log (BuildAllProjects builder configuration platform prepareCallback
           (Some f) st).2 = log st ++ new /\
    (runsOf new).*1
    = (filter (fun flagged : RunnableCommand * bool => flagged.2 = false)
         (flagsOf new)).*1.
Proof.
  unfold BuildAllProjects.
  destruct (validateSolutionConfig _ _ _).
  { exists []. by rewrite app_nil_r. }
  destruct (buildableProjects _ _ _) as [projs warnings].
  case_bool_decide.
  { exists []. by rewrite app_nil_r. }
  destruct (rangeBuildableProjects _ _ _ _ _ _ _ _ _)
    as [[warnings' err] st'] eqn:Hrun.
  by apply rangeBuildableProjects_runs in Hrun.
Qed.

Lemma pairwiseDistinct_snoc performed command :
  pairwiseDistinct performed ->
  BuildCommandSliceContains performed command = false ->
  pairwiseDistinct (performed ++ [command]).
Proof.
  induction performed as [|p performed IH]; simpl.
  - intros _ _. split; [by constructor|done].
  - intros [Hp Hrest] Hnot. apply orb_false_iff in Hnot as [Hpc Hnot].
    split.
    + apply Forall_app. split; [done|]. by constructor.
    + by apply IH.
Qed.

(** X11.  The loop over a project's commands keeps the performed list
    free of duplicates: if no two commands of the list are equal when
    the loop is entered, no two are when it is left, whatever the
    commands, the callbacks and the outcome of [Run]. *)
Theorem performed_list_stays_distinct prepareCallback callback proj
    buildCommands :
  forall perfomedCommands st err performed' st',
    pairwiseDistinct perfomedCommands ->
    rangeBuildCommands prepareCallback callback proj buildCommands
      perfomedCommands st = (err, performed', st') ->
    pairwiseDistinct performed'.
Proof.
  induction buildCommands as [|command buildCommands IH];
    intros performed st err performed' st' Hdistinct Hrun; simpl in Hrun.
  - by injection Hrun as <- <- <-.
  - destruct (callPrepare _ _ _ _) as [edited st1].
    destruct (BuildCommandSliceContains performed edited) eqn:Hcontains;
      simpl in Hrun.
    + by eapply IH.
    + destruct (callRun _ _ _) as [[e|] st3].
      * by injection Hrun as <- <- <-.
      * eapply IH; [|done]. by apply pairwiseDistinct_snoc.
Qed.

End PassMore.

Section PlannedAndSeen.

Context {mc : Machine} {hs : Helpers}.

Lemma plannedFor_cons_resolved builder configuration platform proj projs
    projectConfig :
  resolvedConfig (ToConfig configuration platform) proj = Some projectConfig ->
  plannedFor builder configuration platform (proj :: projs)
  = prepareBuildCommands builder configuration platform proj projectConfig
    ++ plannedFor builder configuration platform projs.
Proof. unfold plannedFor. simpl. by intros ->. Qed.

Lemma plannedFor_cons_unresolved builder configuration platform proj projs :
  resolvedConfig (ToConfig configuration platform) proj = None ->
  plannedFor builder configuration platform (proj :: projs)
  = plannedFor builder configuration platform projs.
Proof. unfold plannedFor. simpl. by intros ->. Qed.

(** A view [view] of the log that the loop over a project's commands
    fills with these commands, one by one, is filled by the loop over the
    projects with the planned commands of all of them. *)
Lemma rangeBuildableProjects_seen (view : list Event -> list RunnableCommand)
    builder configuration platform prepareCallback callback :
  (forall l1 l2, view (l1 ++ l2) = view l1 ++ view l2) ->
  (forall proj buildCommands perfomedCommands st err performed' st',
     rangeBuildCommands prepareCallback callback proj buildCommands
       perfomedCommands st = (err, performed', st') ->
     exists new,
       log st' = log st ++ new /\
       view new `prefix_of` buildCommands /\
       (err = None -> view new = buildCommands)) ->
  forall projs warnings st warnings' err st',
    rangeBuildableProjects builder configuration platform
      (ToConfig configuration platform) prepareCallback callback projs
      warnings st = ((warnings', err), st') ->
    exists new,
      log st' = log st ++ new /\
      view new `prefix_of` plannedFor builder configuration platform projs /\
      (err = None ->
       view new = plannedFor builder configuration platform projs).
Proof.
  intros Happ Hinner.
  assert (view [] = []) as Hnil.
  { pose proof (Happ [] []) as Heq. simpl in Heq.
    destruct (view []); [done|]. apply (f_equal length) in Heq.
    rewrite length_app in Heq. simpl in Heq. lia. }
  induction projs as [|proj projs IH];
    intros warnings st warnings' err st' Hrun.
  - injection Hrun as <- <- <-. exists []. rewrite app_nil_r, Hnil.
    split_and!; [done|apply prefix_nil|done].
  - destruct (resolvedConfig (ToConfig configuration platform) proj)
      as [projectConfig|] eqn:Hres.
    + rewrite (rangeBuildableProjects_plan _ _ _ _ _ _ _ _ _ _ _ Hres)
        in Hrun.
      rewrite (plannedFor_cons_resolved _ _ _ _ _ _ Hres).
      destruct (rangeBuildCommands _ _ _ _ _ _) as [[r performed] st1]
        eqn:Hloop.
      apply Hinner in Hloop as (new1 & Hlog1 & Hpre1 & Hall1).
      destruct r as [e|].
      * injection Hrun as <- <- <-. exists new1.
        split_and!; [done|by apply prefix_app_r|done].
      * apply IH in Hrun as (new & Hlog & Hpre & Hall).
        exists (new1 ++ new). rewrite Happ, (Hall1 eq_refl).
        split_and!.
        -- by rewrite Hlog, Hlog1, <- app_assoc.
        -- by apply prefix_app.
        -- intros Herr. by rewrite (Hall Herr).
    + rewrite rangeBuildableProjects_skip in Hrun by done.
      rewrite plannedFor_cons_unresolved by done. by eapply IH.
Qed.

Lemma callCallback_prepared callback proj command flag st :
  exists l,
    log (callCallback callback proj command flag st) = log st ++ l /\
    preparedOf l = [].
Proof.
  destruct callback as [f|]; simpl.
  - by eexists.
  - exists []. by rewrite app_nil_r.
Qed.

Lemma rangeBuildCommands_prepared g callback proj buildCommands :
  forall perfomedCommands st err performed' st',
    rangeBuildCommands (Some g) callback proj buildCommands
      perfomedCommands st = (err, performed', st') ->
    exists new,
      log st' = log st ++ new /\
      preparedOf new `prefix_of` buildCommands /\
      (err = None -> preparedOf new = buildCommands).
Proof.
  induction buildCommands as [|command buildCommands IH];
    intros performed st err performed' st' Hrun; simpl in Hrun.
  - injection Hrun as <- <- <-. exists []. by rewrite app_nil_r.
  - destruct (g proj command (world st)) as [edited w] eqn:Hg.
    set (st1 := {| world := w;
                   log := log st ++ [PrepareCalled proj command] |}) in *.
    destruct (callCallback_prepared callback proj edited
                (BuildCommandSliceContains performed edited) st1)
      as (l2 & Hl2 & Hp2).
    set (st2 := callCallback _ _ _ _ _) in *.
    destruct (BuildCommandSliceContains performed edited); simpl in Hrun.
    + apply IH in Hrun as (new & Hlog & Hpre & Hall).
      exists (PrepareCalled proj command :: l2 ++ new). split_and!.
      * rewrite Hlog, Hl2. simpl. by rewrite <- !app_assoc.
      * simpl. rewrite preparedOf_app, Hp2. by apply prefix_cons.
      * intros Herr. simpl. rewrite preparedOf_app, Hp2. simpl.
        by rewrite (Hall Herr).
    + destruct (callRun proj edited st2) as [[e|] st3] eqn:Hcall;
        apply callRun_log in Hcall.
      * injection Hrun as <- <- <-.
        exists (PrepareCalled proj command
                :: l2 ++ [RunCalled proj edited (Some e)]). split_and!.
        -- rewrite Hcall, Hl2. simpl. by rewrite <- !app_assoc.
        -- simpl. rewrite preparedOf_app, Hp2. simpl.
           apply prefix_cons, prefix_nil.
        -- done.
      * apply IH in Hrun as (new & Hlog & Hpre & Hall).
        exists (PrepareCalled proj command
                :: l2 ++ RunCalled proj edited None :: new). split_and!.
        -- rewrite Hlog, Hcall, Hl2. simpl. by rewrite <- !app_assoc.
        -- simpl. rewrite preparedOf_app, Hp2. simpl. by apply prefix_cons.
        -- intros Herr. simpl. rewrite preparedOf_app, Hp2. simpl.
           by rewrite (Hall Herr).
Qed.

Lemma rangeBuildCommands_observed f proj buildCommands :
  forall perfomedCommands st err performed' st',
    rangeBuildCommands None (Some f) proj buildCommands
      perfomedCommands st = (err, performed', st') ->
    exists new,
      log st' = log st ++ new /\
      (flagsOf new).*1 `prefix_of` buildCommands /\
      (err = None -> (flagsOf new).*1 = buildCommands).
Proof.
  induction buildCommands as [|command buildCommands IH];
    intros performed st err performed' st' Hrun; simpl in Hrun.
  - injection Hrun as <- <- <-. exists []. by rewrite app_nil_r.
  - destruct (BuildCommandSliceContains performed command) eqn:Hflag;
      simpl in Hrun.
    + apply IH in Hrun as (new & Hlog & Hpre & Hall). simpl in Hlog.
      exists (CallbackCalled proj command true :: new). split_and!.
      * by rewrite Hlog, <- !app_assoc.
      * simpl. by apply prefix_cons.
      * intros Herr. simpl. f_equal. by apply Hall.
    + destruct (callRun proj command _) as [[e|] st3] eqn:Hcall;
        apply callRun_log in Hcall; simpl in Hcall.
      * injection Hrun as <- <- <-.
        exists [CallbackCalled proj command false;
                RunCalled proj command (Some e)]. split_and!.
        -- by rewrite Hcall, <- !app_assoc.
        -- simpl. apply prefix_cons, prefix_nil.
        -- done.
      * apply IH in Hrun as (new & Hlog & Hpre & Hall).
        exists (CallbackCalled proj command false
                :: RunCalled proj command None :: new). split_and!.
        -- by rewrite Hlog, Hcall, <- !app_assoc.
        -- simpl. by apply prefix_cons.
        -- intros Herr. simpl. f_equal. by apply Hall.
Qed.

(** X12.  A prepare callback, when given, is handed the planned commands
    of the buildable projects one by one, in the order of the projects
    and of each plan, each command as the planner built it: all of them
    when the pass ends without error, and an initial stretch of them
    otherwise. *)
Theorem prepare_callback_sees_the_plan builder configuration platform g
    callback st :
  let pass :=
    BuildAllProjects builder configuration platform (Some g) callback st in
  let planned :=
    plannedFor builder configuration platform
      (buildableProjects builder configuration platform).1 in
  exists new,
    log pass.2 = log st ++ new /\
    preparedOf new `prefix_of` planned /\
    (pass.1.2 = None -> preparedOf new = planned).
Proof.
  intros pass planned. unfold pass, planned, BuildAllProjects.
  destruct (validateSolutionConfig _ _ _).
  { exists []. rewrite app_nil_r. split_and!; [done|apply prefix_nil|done]. }
  destruct (buildableProjects _ _ _) as [projs warnings] eqn:Hbuildable.
  simpl. case_bool_decide as Hlen.
  { destruct projs; [|done]. exists []. rewrite app_nil_r.
    split_and!; [done|apply prefix_nil|done]. }
  destruct (rangeBuildableProjects _ _ _ _ _ _ _ _ _)
    as [[warnings' err] st'] eqn:Hrun.
  apply (rangeBuildableProjects_seen preparedOf) in Hrun;
    [done|apply preparedOf_app|apply rangeBuildCommands_prepared].
Qed.

(** X13.  When no prepare callback is given, the callback is called once
    for each planned command of the buildable projects, in the order of
    the projects and of each plan, whether or not the command is then
    run: for all of them when the pass ends without error, and for an
    initial stretch of them otherwise. *)
Theorem callback_sees_the_plan builder configuration platform f st :
  let pass :=
    BuildAllProjects builder configuration platform None (Some f) st in
  let planned :=
    plannedFor builder configuration platform
      (buildableProjects builder configuration platform).1 in
  exists new,
    log pass.2 = log st ++ new /\
    (flagsOf new).*1 `prefix_of` planned /\
    (pass.1.2 = None -> (flagsOf new).*1 = planned).
Proof.
  intros pass planned. unfold pass, planned, BuildAllProjects.
  destruct (validateSolutionConfig _ _ _).
  { exists []. rewrite app_nil_r. split_and!; [done|apply prefix_nil|done]. }
  destruct (buildableProjects _ _ _) as [projs warnings] eqn:Hbuildable.
  simpl. case_bool_decide as Hlen.
  { destruct projs; [|done]. exists []. rewrite app_nil_r.
    split_and!; [done|apply prefix_nil|done]. }
  destruct (rangeBuildableProjects _ _ _ _ _ _ _ _ _)
    as [[warnings' err] st'] eqn:Hrun.
  apply (rangeBuildableProjects_seen (fun l => (flagsOf l).*1)) in Hrun;
    [done| |apply rangeBuildCommands_observed].
  intros l1 l2. by rewrite flagsOf_app, fmap_app.
Qed.

Lemma resolutionWarnings_mapped solutionConfig projs :
  Forall (fun proj => is_Some (project.ConfigMap proj !! solutionConfig))
    projs ->
  resolutionWarnings solutionConfig projs
  = (fun proj => warnNoProjectConfiguration proj solutionConfig)
    <$> filter (fun proj => resolvedConfig solutionConfig proj = None) projs.
Proof.
  induction 1 as [|proj projs [key Hkey] _ IH]; [done|].
  rewrite resolutionWarnings_cons, IH, filter_cons.
  unfold resolutionWarning, resolvedConfig. rewrite Hkey.
  destruct (project.Configs proj !! key) as [cfg|] eqn:Hcfg.
  - by rewrite decide_False.
  - by rewrite decide_True.
Qed.

(** X14.  When the solution configuration is valid, the warnings
    [BuildAllProjects] returns are those of [buildableProjects]
    followed by one missing-project-configuration warning for each
    buildable project, among those the loop went through without error,
    whose [Configs] lacks the key its [ConfigMap] names; the loop went
    through all of them when the pass ends without error.  The loop
    never adds the warning of a missing [ConfigMap] entry. *)
Theorem returned_warnings builder configuration platform prepareCallback
    callback st warnings' err st' :
  let solutionConfig := ToConfig configuration platform in
  let buildable := buildableProjects builder configuration platform in
  validateSolutionConfig (solution builder) configuration platform = None ->
  BuildAllProjects builder configuration platform prepareCallback callback st
  = ((warnings', err), st') ->
  exists passed,
    passed `prefix_of` buildable.1 /\
    warnings'
    = buildable.2
      ++ ((fun proj => warnNoProjectConfiguration proj solutionConfig)
          <$> filter (fun proj => resolvedConfig solutionConfig proj = None)
                passed) /\
    (err = None -> passed = buildable.1).
Proof.
  intros solutionConfig buildable Hvalid Hrun.
  assert (Forall (fun proj =>
            is_Some (project.ConfigMap proj !! solutionConfig))
            buildable.1) as Hmapped.
  { apply Forall_forall. intros proj Hin.
    apply buildableProjects_elem in Hin as [_ [Hsome _]]. done. }
  apply BuildAllProjects_log in Hrun as (new & _ & _ & Hend).
  fold buildable in Hend. fold solutionConfig in Hend.
  destruct err as [e|].
  - destruct Hend as [[Hbad _]|[_ (before & proj & after & Hsplit & _ & -> & _)]];
      [congruence|].
    exists before. split_and!; [| |done].
    + rewrite Hsplit. by apply prefix_app_r.
    + rewrite resolutionWarnings_mapped; [done|].
      rewrite Hsplit in Hmapped. by apply Forall_app in Hmapped as [? _].
  - destruct Hend as [_ ->]. exists buildable.1.
    split_and!; [done| |done]. by rewrite resolutionWarnings_mapped.
Qed.

End PlannedAndSeen.

(* ===================================================================== *)
(** ** More on artifact collection *)
(* ===================================================================== *)

Section CollectingMore.

Context {hs : Helpers}.

Lemma rangeCollect_failed builder solutionConfig projs :
  forall (outputMap outputMap' : OutputMap) err,
    rangeCollect builder solutionConfig projs outputMap
    = (outputMap', Some err) ->
    outputMap' = ∅.
Proof.
  induction projs as [|proj projs IH]; intros om om' err Hrun;
    simpl in Hrun; [done|].
  destruct (project.ConfigMap proj !! solutionConfig) as [key|];
    [|by eapply IH].
  destruct (project.Configs proj !! key) as [cfg|]; [|by eapply IH].
  destruct (om !! project.ProjectType proj) as [m0|].
  - destruct (probeProject builder proj cfg m0) as [m1|e].
    + by eapply IH.
    + by injection Hrun as <- _.
  - destruct (probeProject builder proj cfg ∅) as [m1|e].
    + by eapply IH.
    + by injection Hrun as <- _.
Qed.

(** X15.  When [CollectOutput] returns an error, the map it returns
    with it is empty: what earlier projects had contributed is not
    returned. *)
Theorem collect_error_returns_empty_map builder configuration platform
    (outputMap : OutputMap) err :
  CollectOutput builder configuration platform = (outputMap, Some err) ->
  outputMap = ∅.
Proof.
  unfold CollectOutput.
  destruct (buildableProjects builder configuration platform)
    as [projs warnings].
  apply rangeCollect_failed.
Qed.

Lemma putFound_lookup k p (m : gmap OutputType string) kind :
  putFound k p m !! kind
  = if bool_decide (k = kind /\ p <> "") then Some p else m !! kind.
Proof.
  unfold putFound. case_bool_decide as Hp.
  - destruct (decide (k = kind)) as [->|Hne].
    + rewrite lookup_insert_eq. by rewrite bool_decide_eq_true_2.
    + rewrite lookup_insert_ne by done.
      by rewrite bool_decide_eq_false_2 by (by intros [? _]).
  - by rewrite bool_decide_eq_false_2 by (by intros [_ ?]).
Qed.

(** After the probes of one project, its map holds for every kind the
    non-empty path the probe of that kind returned, and what it held
    before for the other kinds. *)
Lemma probeProject_lookup builder proj projectConfig m m' kind :
  probeProject builder proj projectConfig m = Ok m' ->
  m' !! kind
  = match foundPath builder proj projectConfig kind with
    | Some pth => Some pth
    | None => m !! kind
    end.
Proof.
  unfold probeProject, foundPath, probesOf.
  destruct (project.ProjectType proj); simpl.
  - by intros [= <-].
  - destruct (exportLatestXCArchiveFromXcodeArchives _); [|done].
    destruct (exportLatestIpa _ _); [|done].
    destruct (exportAppDSYM _ _); [|done]. simpl.
    intros [= <-]. rewrite !putFound_lookup.
    destruct kind; repeat case_bool_decide; simpl; try done;
      intuition congruence.
  - destruct (exportLatestXCArchiveFromXcodeArchives _); [|done].
    destruct (exportLatestIpa _ _); [|done].
    destruct (exportAppDSYM _ _); [|done]. simpl.
    intros [= <-]. rewrite !putFound_lookup.
    destruct kind; repeat case_bool_decide; simpl; try done;
      intuition congruence.
  - destruct (forceMDTool builder); simpl.
    + destruct (exportLatestXCArchiveFromXcodeArchives _); [|done].
      destruct (exportApp _ _); [|done].
      destruct (exportPKG _ _); [|done]. simpl.
      intros [= <-]. rewrite !putFound_lookup.
      destruct kind; repeat case_bool_decide; simpl; try done;
      intuition congruence.
    + destruct (exportApp _ _); [|done].
      destruct (exportPKG _ _); [|done]. simpl.
      intros [= <-]. rewrite !putFound_lookup.
      destruct kind; repeat case_bool_decide; simpl; try done;
      intuition congruence.
  - destruct (androidPackageName _); [|done]. simpl.
    destruct (exportApk _ _); [|done]. simpl.
    intros [= <-]. rewrite !putFound_lookup.
    destruct kind; repeat case_bool_decide; simpl; try done;
      intuition congruence.
Qed.

Lemma foundPath_probe builder proj projectConfig kind pth :
  foundPath builder proj projectConfig kind = Some pth ->
  (kind, Ok pth) ∈ probesOf builder proj projectConfig /\ pth <> "".
Proof.
  unfold foundPath. intros Hhead. apply head_Some_elem_of in Hhead.
  apply list_elem_of_omap in Hhead as ([k r] & Hin & Hsome). simpl in Hsome.
  destruct r as [p|]; [|done]. case_bool_decide as Hp; [|done].
  injection Hsome as <-. destruct Hp as [<- Hne]. done.
Qed.

Lemma probesOf_kinds builder proj projectConfig kind r :
  (kind, r) ∈ probesOf builder proj projectConfig ->
  kind ∈ artifactKinds builder (project.ProjectType proj).
Proof.
  unfold probesOf, artifactKinds.
  destruct (project.ProjectType proj); simpl.
  - by intros ?%elem_of_nil.
  - intros Hin. apply (list_elem_of_fmap_2 fst) in Hin. exact Hin.
  - intros Hin. apply (list_elem_of_fmap_2 fst) in Hin. exact Hin.
  - intros Hin. apply (list_elem_of_fmap_2 fst) in Hin.
    destruct (forceMDTool builder); exact Hin.
  - destruct (androidPackageName _); [|by intros ?%elem_of_nil].
    intros Hin. apply (list_elem_of_fmap_2 fst) in Hin. exact Hin.
Qed.

(** Every entry of the map comes from the map the loop started with or
    from a probe of a project of the list. *)
Lemma rangeCollect_entries builder solutionConfig
    (good : ProjectType -> OutputType -> string -> Prop) projs :
  forall (outputMap outputMap' : OutputMap),
    (forall proj key cfg kind pth,
       proj ∈ projs ->
       project.ConfigMap proj !! solutionConfig = Some key ->
       project.Configs proj !! key = Some cfg ->
       (kind, Ok pth) ∈ probesOf builder proj cfg ->
       pth <> "" ->
       good (project.ProjectType proj) kind pth) ->
    (forall t m kind pth,
       outputMap !! t = Some m -> m !! kind = Some pth -> good t kind pth) ->
    rangeCollect builder solutionConfig projs outputMap
    = (outputMap', None) ->
    forall t m kind pth,
      outputMap' !! t = Some m -> m !! kind = Some pth -> good t kind pth.
Proof.
  induction projs as [|proj projs IH]; intros om om' Hgood Hinv Hrun;
    simpl in Hrun.
  - by injection Hrun as <-.
  - assert (forall q key cfg kind pth,
              q ∈ projs ->
              project.ConfigMap q !! solutionConfig = Some key ->
              project.Configs q !! key = Some cfg ->
              (kind, Ok pth) ∈ probesOf builder q cfg ->
              pth <> "" ->
              good (project.ProjectType q) kind pth) as Hgood'.
    { intros q key cfg kind pth Hin. apply Hgood. by right. }
    destruct (project.ConfigMap proj !! solutionConfig) as [key|] eqn:Hkey;
      [|by eapply IH].
    destruct (project.Configs proj !! key) as [cfg|] eqn:Hcfg;
      [|by eapply IH].
    assert (forall m0 m1,
              (forall kind pth,
                 m0 !! kind = Some pth ->
                 good (project.ProjectType proj) kind pth) ->
              probeProject builder proj cfg m0 = Ok m1 ->
              forall t m kind pth,
                <[project.ProjectType proj := m1]> om !! t = Some m ->
                m !! kind = Some pth -> good t kind pth) as Hstep.
    { intros m0 m1 Hm0 Hprobe t m kind pth Hm Hpth.
      apply lookup_insert_Some in Hm as [[<- <-]|[_ Hm]];
        [|by eapply Hinv].
      rewrite (probeProject_lookup _ _ _ _ _ kind Hprobe) in Hpth.
      destruct (foundPath builder proj cfg kind) as [p|] eqn:Hfound.
      - injection Hpth as ->. apply foundPath_probe in Hfound as [? ?].
        eapply Hgood; [left|done..].
      - by apply Hm0. }
    destruct (om !! project.ProjectType proj) as [m0|] eqn:Hold.
    + destruct (probeProject builder proj cfg m0) as [m1|] eqn:Hprobe;
        [|done].
      simpl in Hrun. eapply IH; [done| |done].
      eapply Hstep; [|done]. intros kind pth. by apply Hinv.
    + destruct (probeProject builder proj cfg ∅) as [m1|] eqn:Hprobe;
        [|done].
      simpl in Hrun. case_bool_decide.
      * eapply IH; [done| |done].
        eapply Hstep; [|done]. intros kind pth Hempty.
        by rewrite lookup_empty in Hempty.
      * by eapply IH.
Qed.

(** X16.  When [CollectOutput] returns without error, every path in the
    returned map is non-empty and is the path that the probe of that
    artifact kind returned for a buildable project of that type. *)
Theorem collected_paths_come_from_probes builder configuration platform
    (outputMap : OutputMap) t m kind pth :
  CollectOutput builder configuration platform = (outputMap, None) ->
  outputMap !! t = Some m ->
  m !! kind = Some pth ->
  pth <> "" /\
  exists proj projectConfigKey projectConfig,
    proj ∈ (buildableProjects builder configuration platform).1 /\
    project.ProjectType proj = t /\
    project.ConfigMap proj !! ToConfig configuration platform
    = Some projectConfigKey /\
    project.Configs proj !! projectConfigKey = Some projectConfig /\
    (kind, Ok pth) ∈ probesOf builder proj projectConfig.
Proof.
  unfold CollectOutput.
  destruct (buildableProjects builder configuration platform)
    as [projs warnings]. simpl.
  intros Hrun. revert t m kind pth.
  eapply (rangeCollect_entries builder _
            (fun t kind pth =>
               pth <> "" /\
               exists proj key cfg,
                 proj ∈ projs /\ project.ProjectType proj = t /\
                 project.ConfigMap proj !! ToConfig configuration platform
                 = Some key /\
                 project.Configs proj !! key = Some cfg /\
                 (kind, Ok pth) ∈ probesOf builder proj cfg));
    [| |exact Hrun].
  - intros proj key cfg kind pth Hin Hkey Hcfg Hprobe Hne.
    split; [done|]. by exists proj, key, cfg.
  - intros t m kind pth Hm. by rewrite lookup_empty in Hm.
Qed.

(** X17.  When [CollectOutput] returns without error, the artifact kinds
    recorded for a project type are among those of that type: archive,
    ipa and dSYM for iOS and tvOS; app and pkg for macOS, and the archive
    only when [forceMDTool] is set; apk for Android; nothing for an
    unknown type. *)
Theorem collected_kinds_by_type builder configuration platform
    (outputMap : OutputMap) t m kind :
  CollectOutput builder configuration platform = (outputMap, None) ->
  outputMap !! t = Some m ->
  is_Some (m !! kind) ->
  kind ∈ artifactKinds builder t.
Proof.
  unfold CollectOutput.
  destruct (buildableProjects builder configuration platform)
    as [projs warnings].
  intros Hrun Hm [pth Hpth]. revert t m kind pth Hm Hpth.
  eapply (rangeCollect_entries builder _
            (fun t kind pth => kind ∈ artifactKinds builder t));
    [| |exact Hrun].
  - intros proj key cfg kind pth _ _ _ Hprobe _.
    by eapply probesOf_kinds.
  - intros t m kind pth Hm. by rewrite lookup_empty in Hm.
Qed.

Lemma latestFound_cons builder solutionConfig proj projs t kind init :
  latestFound builder solutionConfig (proj :: projs) t kind init
  = latestFound builder solutionConfig projs t kind
      (latestFound builder solutionConfig [proj] t kind init).
Proof. done. Qed.

Lemma rangeCollect_latest builder solutionConfig projs :
  forall (outputMap outputMap' : OutputMap) t kind,
    rangeCollect builder solutionConfig projs outputMap
    = (outputMap', None) ->
    outputMap' !! t ≫= (.!! kind)
    = latestFound builder solutionConfig projs t kind
        (outputMap !! t ≫= (.!! kind)).
Proof.
  induction projs as [|proj projs IH]; intros om om' t kind Hrun.
  - by injection Hrun as <-.
  - rewrite latestFound_cons. unfold latestFound at 2. simpl.
    unfold resolvedConfig. simpl in Hrun.
    destruct (project.ConfigMap proj !! solutionConfig) as [key|] eqn:Hkey.
    2:{ rewrite (IH _ _ t kind Hrun). by case_bool_decide. }
    destruct (project.Configs proj !! key) as [cfg|] eqn:Hcfg.
    2:{ rewrite (IH _ _ t kind Hrun). by case_bool_decide. }
    set (t0 := project.ProjectType proj) in *.
    destruct (om !! t0) as [m0|] eqn:Hold.
    + destruct (probeProject builder proj cfg m0) as [m1|] eqn:Hprobe;
        [|done].
      simpl in Hrun. rewrite (IH _ _ t kind Hrun). f_equal.
      case_bool_decide as Ht.
      * subst t. rewrite lookup_insert_eq, Hold. simpl.
        apply (probeProject_lookup _ _ _ _ _ kind Hprobe).
      * by rewrite lookup_insert_ne.
    + destruct (probeProject builder proj cfg ∅) as [m1|] eqn:Hprobe;
        [|done].
      simpl in Hrun. rewrite (IH _ _ t kind Hrun). f_equal.
      pose proof (probeProject_lookup _ _ _ _ _ kind Hprobe) as Hlookup.
      rewrite lookup_empty in Hlookup.
      case_bool_decide as Hsize; case_bool_decide as Ht.
      * subst t. rewrite lookup_insert_eq, Hold. simpl. exact Hlookup.
      * by rewrite lookup_insert_ne.
      * subst t. rewrite Hold. simpl.
        assert (m1 = ∅) as ->.
        { apply map_size_empty_iff. lia. }
        by rewrite lookup_empty in Hlookup.
      * done.
Qed.

(** X18.  When [CollectOutput] returns without error, the path recorded
    for a project type and an artifact kind is the one found for the
    last buildable project of that type whose probe of that kind
    returned a non-empty path, and there is no entry when there is no
    such project: a later project of the same type replaces the
    artifact of an earlier one, kind by kind. *)
Theorem collected_path_is_latest builder configuration platform
    (outputMap : OutputMap) t kind :
  CollectOutput builder configuration platform = (outputMap, None) ->
  outputMap !! t ≫= (.!! kind)
  = latestFound builder (ToConfig configuration platform)
      (buildableProjects builder configuration platform).1 t kind None.
Proof.
  unfold CollectOutput.
  destruct (buildableProjects builder configuration platform)
    as [projs warnings]. simpl.
  intros Hrun. rewrite (rangeCollect_latest _ _ _ _ _ t kind Hrun).
  by rewrite lookup_empty.
Qed.

End CollectingMore.

(* ===================================================================== *)
(** ** Cleaning *)
(* ===================================================================== *)

Section CleaningProperties.

Context {dk : Disk}.

Lemma sweepOf_app announce todo1 todo2 events1 events2 err :
  sweepOf announce todo1 events1 None ->
  sweepOf announce todo2 events2 err ->
  sweepOf announce (todo1 ++ todo2) (events1 ++ events2) err.
Proof.
  intros H1 H2. remember None as none eqn:Hnone.
  induction H1 as [| | proj pth todo events e H1 IH
                   | proj pth todo events e H1 IH | ]; simpl.
  - done.
  - done.
  - constructor. by apply IH.
  - rewrite <- app_assoc. simpl. constructor. by apply IH.
  - done.
Qed.

Lemma sweepOf_failed announce todo1 todo2 events err :
  sweepOf announce todo1 events (Some err) ->
  sweepOf announce (todo1 ++ todo2) events (Some err).
Proof.
  remember (Some err) as some eqn:Hsome.
  induction 1 as [| | proj pth todo events e H1 IH
                  | proj pth todo events e H1 IH | ]; simpl.
  - done.
  - constructor.
  - constructor. by apply IH.
  - constructor. by apply IH.
  - constructor.
Qed.

(** One block of the loop body, as a sweep through one test. *)
Lemma removeIfExists_sweep callback proj pth st err st' :
  removeIfExists callback proj pth st = (err, st') ->
  exists new,
    calls st' = calls st ++ new /\
    sweepOf (bool_decide (is_Some callback)) [(proj, pth)] new err.
Proof.
  unfold removeIfExists.
  destruct (pathutil_IsDirExists pth (disk st)) as [[|]|e]; simpl.
  - destruct callback as [f|]; simpl.
    + destruct (os_RemoveAll _ _) as [[e|] d]; intros [= <- <-]; simpl;
        rewrite <- !app_assoc; eexists; (split; [done|]).
      * apply (sweep_removal_failed true).
      * apply (sweep_removed true). constructor.
    + destruct (os_RemoveAll _ _) as [[e|] d]; intros [= <- <-]; simpl;
        rewrite <- !app_assoc; eexists; (split; [done|]).
      * apply (sweep_removal_failed false).
      * apply (sweep_removed false). constructor.
  - intros [= <- <-]. simpl. eexists. split; [done|].
    constructor. constructor.
  - intros [= <- <-]. simpl. eexists. split; [done|]. constructor.
Qed.

(** The loop of [CleanAll], as a sweep through the tests of its
    projects. *)
Lemma rangeClean_sweep callback projs :
  forall st err st',
    rangeClean callback projs st = (err, st') ->
    exists new,
      calls st' = calls st ++ new /\
      sweepOf (bool_decide (is_Some callback)) (plannedChecks projs) new err.
Proof.
  induction projs as [|proj projs IH]; intros st err st' Hrun; simpl in Hrun.
  - injection Hrun as <- <-. exists []. rewrite app_nil_r.
    split; [done|constructor].
  - change (plannedChecks (proj :: projs))
      with ([(proj, filepath_Join (filepath_Dir (project.Pth proj)) "bin")]
            ++ [(proj, filepath_Join (filepath_Dir (project.Pth proj)) "obj")]
            ++ plannedChecks projs).
    destruct (removeIfExists callback proj _ st) as [[e|] st1] eqn:Hbin;
      apply removeIfExists_sweep in Hbin as (new1 & Hcalls1 & Hsweep1).
    { injection Hrun as <- <-. exists new1. split; [done|].
      by apply sweepOf_failed. }
    destruct (removeIfExists callback proj _ st1) as [[e|] st2] eqn:Hobj;
      apply removeIfExists_sweep in Hobj as (new2 & Hcalls2 & Hsweep2).
    { injection Hrun as <- <-. exists (new1 ++ new2). split.
      - by rewrite Hcalls2, Hcalls1, <- app_assoc.
      - apply sweepOf_app; [done|]. by apply sweepOf_failed. }
    apply IH in Hrun as (new & Hcalls & Hsweep).
    exists (new1 ++ new2 ++ new). split.
    + by rewrite Hcalls, Hcalls2, Hcalls1, <- !app_assoc.
    + apply sweepOf_app; [done|]. by apply sweepOf_app.
Qed.

Lemma sweepOf_checks announce todo events err :
  sweepOf announce todo events err ->
  checksOf events `prefix_of` todo /\
  (err = None -> checksOf events = todo).
Proof.
  assert (forall proj pth l,
            checksOf (announcement announce proj pth ++ l) = checksOf l)
    as Hann by (intros; by destruct announce).
  induction 1 as [| | proj pth todo events e H1 [IHp IHe]
                  | proj pth todo events e H1 [IHp IHe] | ]; simpl;
    rewrite ?Hann; simpl.
  - done.
  - split; [apply prefix_cons, prefix_nil|done].
  - split; [by apply prefix_cons|]. intros He. by rewrite IHe.
  - split; [by apply prefix_cons|]. intros He. by rewrite IHe.
  - split; [apply prefix_cons, prefix_nil|done].
Qed.

Lemma sweepOf_removed announce todo events err :
  sweepOf announce todo events err ->
  removedOf events = existingOf events /\
  announcedOf events = (if announce then removedOf events else []).
Proof.
  intros Hsweep. unfold announcement in Hsweep.
  destruct announce;
    induction Hsweep as [| | proj pth todo events e H1 [IHr IHa]
                         | proj pth todo events e H1 [IHr IHa] | ];
    simpl; first [done | split; congruence].
Qed.

Lemma sweepOf_targets announce todo events err :
  sweepOf announce todo events err ->
  Forall (fun e => cleanEventTarget e ∈ todo) events.
Proof.
  induction 1 as [| | proj pth todo events e H1 IH
                  | proj pth todo events e H1 IH | ].
  - constructor.
  - repeat constructor.
  - constructor; [left|].
    eapply Forall_impl; [exact IH|]. intros ev ?. by right.
  - constructor; [left|]. apply Forall_app. split.
    + destruct announce; repeat constructor.
    + constructor; [left|].
      eapply Forall_impl; [exact IH|]. intros ev ?. by right.
  - constructor; [left|]. apply Forall_app. split.
    + destruct announce; repeat constructor.
    + repeat constructor.
Qed.

Lemma sweepOf_failure announce todo events err :
  sweepOf announce todo events err ->
  match err with
  | None => Forall (fun ev => failedWith ev = None) events
  | Some e =>
      exists init ev,
        events = init ++ [ev] /\
        Forall (fun ev => failedWith ev = None) init /\
        failedWith ev = Some e
  end.
Proof.
  assert (forall proj pth,
            Forall (fun ev => failedWith ev = None)
              (announcement announce proj pth)) as Hann.
  { intros. destruct announce; by repeat constructor. }
  induction 1 as [| | proj pth todo events e H1 IH
                  | proj pth todo events e H1 IH | ].
  - constructor.
  - by exists [], (IsDirExistsCalled proj pth (Fail err)).
  - destruct e as [e|].
    + destruct IH as (init & ev & -> & Hinit & Hev).
      exists (IsDirExistsCalled proj pth (Ok false) :: init), ev.
      split_and!; [done|by constructor|done].
    + by constructor.
  - destruct e as [e|].
    + destruct IH as (init & ev & -> & Hinit & Hev).
      exists (IsDirExistsCalled proj pth (Ok true)
              :: announcement announce proj pth
              ++ RemoveAllCalled proj pth None :: init), ev.
      split_and!; [|by repeat first [constructor | apply Forall_app; split]
                   |done].
      simpl. by rewrite <- !app_assoc.
    + by repeat first [constructor | apply Forall_app; split].
  - exists (IsDirExistsCalled proj pth (Ok true)
            :: announcement announce proj pth),
           (RemoveAllCalled proj pth (Some err)).
    split_and!; [done|by constructor|done].
Qed.

Context {hs : Helpers}.

(** X19.  The calls of [CleanAll] form a sweep through [bin] and [obj]
    of the filtered projects: a directory is removed only right after
    its existence test answered yes, with the callback, when one is
    given, called for that directory in between; a test that answers no
    is followed by the next test; and a test or a removal that fails is
    the last call, its error being the one returned. *)
Theorem clean_calls_form_a_sweep builder callback st :
  exists new,
    calls (CleanAll builder callback st).2 = calls st ++ new /\
    sweepOf (bool_decide (is_Some callback))
      (plannedChecks (filteredProjects builder)) new
      (CleanAll builder callback st).1.
Proof.
  unfold CleanAll.
  destruct (rangeClean _ _ _) as [err st'] eqn:Hrun.
  by apply rangeClean_sweep in Hrun.
Qed.

(** X20.  [CleanAll] tests the directories in a fixed order: for each
    filtered project in turn, [bin] and then [obj] beside its project
    file.  It tests all of them when it returns without error, and an
    initial stretch of them otherwise. *)
Theorem clean_tests_in_order builder callback st :
  exists new,
    calls (CleanAll builder callback st).2 = calls st ++ new /\
    checksOf new `prefix_of` plannedChecks (filteredProjects builder) /\
    ((CleanAll builder callback st).1 = None ->
     checksOf new = plannedChecks (filteredProjects builder)).
Proof.
  unfold CleanAll.
  destruct (rangeClean _ _ _) as [err st'] eqn:Hrun.
  apply rangeClean_sweep in Hrun as (new & Hcalls & Hsweep).
  exists new. split; [done|]. by apply sweepOf_checks in Hsweep.
Qed.

(** X21.  The directories [CleanAll] calls [os.RemoveAll] on are exactly
    those whose existence test answered yes, in the same order; and
    when a callback is given it is called exactly for those directories,
    once each, also when the removal then fails. *)
Theorem clean_removes_what_exists builder callback st :
  exists new,
    calls (CleanAll builder callback st).2 = calls st ++ new /\
    removedOf new = existingOf new /\
    announcedOf new
    = match callback with Some _ => removedOf new | None => [] end.
Proof.
  unfold CleanAll.
  destruct (rangeClean _ _ _) as [err st'] eqn:Hrun.
  apply rangeClean_sweep in Hrun as (new & Hcalls & Hsweep).
  exists new. split; [done|].
  apply sweepOf_removed in Hsweep. by destruct callback.
Qed.

(** X22.  Every call of [CleanAll], be it a test, a callback call or a
    removal, is for a filtered project, hence one of an allowed and
    known type, and for the directory [bin] or [obj] beside its project
    file. *)
Theorem clean_touches_only_bin_and_obj builder callback st :
  exists new,
    calls (CleanAll builder callback st).2 = calls st ++ new /\
    Forall (fun e =>
      let '(proj, pth) := cleanEventTarget e in
      proj ∈ filteredProjects builder /\
      project.ProjectType proj <> ProjectTypeUnknown /\
      (pth = filepath_Join (filepath_Dir (project.Pth proj)) "bin" \/
       pth = filepath_Join (filepath_Dir (project.Pth proj)) "obj")) new.
Proof.
  unfold CleanAll.
  destruct (rangeClean _ _ _) as [err st'] eqn:Hrun.
  apply rangeClean_sweep in Hrun as (new & Hcalls & Hsweep).
  exists new. split; [done|].
  apply sweepOf_targets in Hsweep.
  eapply Forall_impl; [exact Hsweep|]. intros e Hin. cbv beta in Hin.
  destruct (cleanEventTarget e) as [proj pth].
  unfold plannedChecks in Hin.
  apply list_elem_of_In, in_concat in Hin as (block & Hblock & Hin).
  apply list_elem_of_In in Hin.
  apply list_elem_of_In, list_elem_of_fmap in Hblock as (q & -> & Hq).
  cbv beta zeta in Hin.
  assert (proj = q) as ->.
  { apply elem_of_cons in Hin as [[= -> _]|Hin]; [done|].
    apply list_elem_of_singleton in Hin as [= -> _]. done. }
  split_and!; [done|by eapply filteredProjects_not_unknown|].
  apply elem_of_cons in Hin as [[= ->]|Hin]; [by left|].
  apply list_elem_of_singleton in Hin as [= ->]. by right.
Qed.

(** X23.  When [CleanAll] returns without error, none of its calls has
    failed.  When it returns an error, that error is the one of its last
    call, a test or a removal, and no call before it failed: the first
    failure stops everything. *)
Theorem clean_stops_at_first_failure builder callback st :
  exists new,
    calls (CleanAll builder callback st).2 = calls st ++ new /\
    match (CleanAll builder callback st).1 with
    | None => Forall (fun ev => failedWith ev = None) new
    | Some err =>
        exists init ev,
          new = init ++ [ev] /\
          Forall (fun ev => failedWith ev = None) init /\
          failedWith ev = Some err
    end.
Proof.
  unfold CleanAll.
  destruct (rangeClean _ _ _) as [err st'] eqn:Hrun.
  apply rangeClean_sweep in Hrun as (new & Hcalls & Hsweep).
  exists new. split; [done|]. by apply sweepOf_failure in Hsweep.
Qed.

Lemma rangeClean_nothing callback projs :
  forall st,
    Forall (fun check : project.Model * string =>
              pathutil_IsDirExists check.2 (disk st) = Ok false)
      (plannedChecks projs) ->
    rangeClean callback projs st
    = (None,
       {| disk := disk st;
          calls := calls st
                   ++ ((fun check : project.Model * string =>
                          IsDirExistsCalled check.1 check.2 (Ok false))
                       <$> plannedChecks projs) |}).
Proof.
  induction projs as [|proj projs IH]; intros st Habsent; simpl.
  - rewrite app_nil_r. by destruct st.
  - change (plannedChecks (proj :: projs))
      with ((proj, filepath_Join (filepath_Dir (project.Pth proj)) "bin")
            :: (proj, filepath_Join (filepath_Dir (project.Pth proj)) "obj")
            :: plannedChecks projs) in *.
    apply Forall_cons in Habsent as [Hbin Habsent].
    apply Forall_cons in Habsent as [Hobj Habsent]. simpl in Hbin, Hobj.
    unfold removeIfExists. rewrite Hbin. simpl. rewrite Hobj. simpl.
    rewrite IH by done. simpl. by rewrite <- !app_assoc.
Qed.

Lemma absent_tests_only (l : list (project.Model * string)) :
  let events :=
    (fun check : project.Model * string =>
       IsDirExistsCalled check.1 check.2 (Ok false)) <$> l in
  checksOf events = l /\ announcedOf events = [] /\ removedOf events = [].
Proof.
  induction l as [|[p d] l (Hc & Ha & Hr)]; [done|].
  simpl in *. split_and!; [by f_equal|done|done].
Qed.

(** X24.  When none of the [bin] and [obj] directories of the filtered
    projects exists, [CleanAll] returns without error, leaves the disk
    as it is, calls neither the callback nor [os.RemoveAll], and has
    tested each of the directories once. *)
Theorem clean_nothing_to_remove builder callback st :
  Forall (fun check : project.Model * string =>
            pathutil_IsDirExists check.2 (disk st) = Ok false)
    (plannedChecks (filteredProjects builder)) ->
  exists new,
    CleanAll builder callback st
    = (None, {| disk := disk st; calls := calls st ++ new |}) /\
    checksOf new = plannedChecks (filteredProjects builder) /\
    announcedOf new = [] /\
    removedOf new = [].
Proof.
  intros Habsent. unfold CleanAll.
  rewrite rangeClean_nothing by done.
  eexists. split; [done|]. apply absent_tests_only.
Qed.

End CleaningProperties.

(* ===================================================================== *)
(** ** The further properties at the scenarios *)
(* ===================================================================== *)

(** The cleanup scenario of the specification: beside the project file
    there is [bin] but no [obj]; the callback is called once, for
    [bin], and only [bin] is removed. *)
Example clean_only_bin :
  let swept :=
    @CleanAll scenario.diskOfDirs scenario.helpers
      (scenario.mkBuilder [scenario.iosApp] false)
      (Some scenario.quietClearCallback) scenario.onlyBin in
  swept.1 = None /\
  disk swept.2 = ["App.iOS/Resources"] /\
  calls swept.2
  = [IsDirExistsCalled scenario.iosApp "App.iOS/bin" (Ok true);
     ClearCallbackCalled scenario.iosApp "App.iOS/bin";
     RemoveAllCalled scenario.iosApp "App.iOS/bin" None;
     IsDirExistsCalled scenario.iosApp "App.iOS/obj" (Ok false)].
Proof. vm_compute. by repeat split. Qed.

Lemma android_non_application_excluded_witness :
  project.ProjectType scenario.androidLibrary = ProjectTypeAndroid /\
  project.AndroidApplication scenario.androidLibrary = false /\
  (scenario.androidLibrary
   ∉ (@buildableProjects scenario.helpers scenario.withLibraries
        "Release" "iPhone").1) /\
  (warnNotAndroidApplication scenario.androidLibrary
   ∈ (@buildableProjects scenario.helpers scenario.withLibraries
        "Release" "iPhone").2).
Proof.
  split; [reflexivity|]. split; [reflexivity|].
  destruct (@android_non_application_excluded scenario.helpers
              scenario.withLibraries "Release" "iPhone"
              scenario.androidLibrary eq_refl eq_refl) as [Hout Hwarn].
  split; [exact Hout|]. apply Hwarn.
  - vm_compute. do 2 constructor. constructor.
  - eexists. vm_compute. reflexivity.
Defined.

Lemma ios_tvos_needs_exe_output_witness :
  (project.ProjectType scenario.iosLibrary = ProjectTypeIOS \/
   project.ProjectType scenario.iosLibrary = ProjectTypeTvOS) /\
  project.OutputType scenario.iosLibrary <> "exe" /\
  (scenario.iosLibrary
   ∉ (@buildableProjects scenario.helpers scenario.withLibraries
        "Release" "iPhone").1) /\
  (warnOutputType scenario.iosLibrary
   ∈ (@buildableProjects scenario.helpers scenario.withLibraries
        "Release" "iPhone").2).
Proof.
  assert (project.OutputType scenario.iosLibrary <> "exe") as Hexe
    by discriminate.
  split; [by left|]. split; [exact Hexe|].
  destruct (@ios_tvos_needs_exe_output scenario.helpers
              scenario.withLibraries "Release" "iPhone" scenario.iosLibrary
              (or_introl eq_refl) Hexe) as [Hout Hwarn].
  split; [exact Hout|]. apply Hwarn.
  - vm_compute. do 1 constructor. constructor.
  - eexists. vm_compute. reflexivity.
Defined.

(** The scenario projects have an entry for [Release|iPhone] only. *)
Lemma unmapped_project_excluded_witness :
  project.ConfigMap scenario.iosApp
    !! @ToConfig scenario.helpers "Debug" "iPhone" = None /\
  (scenario.iosApp
   ∉ (@buildableProjects scenario.helpers scenario.withLibraries
        "Debug" "iPhone").1) /\
  (warnNoConfig scenario.iosApp (@ToConfig scenario.helpers "Debug" "iPhone")
   ∈ (@buildableProjects scenario.helpers scenario.withLibraries
        "Debug" "iPhone").2).
Proof.
  split; [reflexivity|].
  destruct (@unmapped_project_excluded scenario.helpers
              scenario.withLibraries "Debug" "iPhone" scenario.iosApp
              eq_refl) as [Hout Hwarn].
  split; [exact Hout|]. apply Hwarn. vm_compute. constructor.
Defined.

Lemma macos_xbuild_single_command_witness :
  project.ProjectType scenario.macApp = ProjectTypeMacOS /\
  forceMDTool scenario.mixed = false /\
  exists command,
    @prepareBuildCommands scenario.helpers scenario.mixed
      "Release" "iPhone" scenario.macApp scenario.release
    = [XBuild command] /\
    xbuild.archiveOnBuild command = true /\
    xbuild.buildIpa command = false.
Proof.
  split; [reflexivity|]. split; [reflexivity|].
  destruct (@macos_xbuild_single_command scenario.helpers scenario.mixed
              "Release" "iPhone" scenario.macApp scenario.release
              eq_refl eq_refl)
    as (command & Hplan & _ & _ & _ & _ & Harchive & Hipa).
  exists command. split; [exact Hplan|]. split; [exact Harchive|exact Hipa].
Defined.

Lemma planned_tool_witness :
  (forceMDTool scenario.mixed = false \/
   project.ProjectType scenario.androidApp = ProjectTypeAndroid) /\
  Forall (fun command => isXBuild command = true)
    (@prepareBuildCommands scenario.helpers scenario.mixed
       "Release" "iPhone" scenario.androidApp scenario.releaseAndroid) /\
  forceMDTool scenario.macThenIOSForced = true /\
  project.ProjectType scenario.macApp <> ProjectTypeAndroid /\
  Forall (fun command => isXBuild command = false)
    (@prepareBuildCommands scenario.helpers scenario.macThenIOSForced
       "Release" "iPhone" scenario.macApp scenario.release).
Proof.
  assert (project.ProjectType scenario.macApp <> ProjectTypeAndroid) as Hty
    by discriminate.
  split; [by left|]. split.
  - exact (proj1 (@planned_tool scenario.helpers scenario.mixed
                    "Release" "iPhone" scenario.androidApp
                    scenario.releaseAndroid) (or_introl eq_refl)).
  - split; [reflexivity|]. split; [exact Hty|].
    exact (proj2 (@planned_tool scenario.helpers scenario.macThenIOSForced
                    "Release" "iPhone" scenario.macApp scenario.release)
             eq_refl Hty).
Defined.

Lemma performed_list_stays_distinct_witness :
  let inner :=
    @rangeBuildCommands scenario.machine None None scenario.macApp
      [scenario.xbuildRelease; scenario.xbuildRelease] [] scenario.start in
  pairwiseDistinct [] /\
  inner = (inner.1.1, inner.1.2, inner.2) /\
  pairwiseDistinct inner.1.2 /\
  inner.1.2 = [scenario.xbuildRelease].
Proof.
  intros inner.
  assert (inner = (inner.1.1, inner.1.2, inner.2)) as Hinner
    by (vm_compute; reflexivity).
  split; [exact I|]. split; [exact Hinner|]. split.
  - exact (@performed_list_stays_distinct scenario.machine None None
             scenario.macApp _ [] _ _ _ _ I Hinner).
  - vm_compute. reflexivity.
Defined.

Lemma returned_warnings_witness :
  let pass :=
    @BuildAllProjects scenario.machine scenario.helpers scenario.mixed
      "Release" "iPhone" None None scenario.start in
  let buildable :=
    @buildableProjects scenario.helpers scenario.mixed "Release" "iPhone" in
  @validateSolutionConfig scenario.helpers (solution scenario.mixed)
    "Release" "iPhone" = None /\
  pass = ((pass.1.1, pass.1.2), pass.2) /\
  exists passed,
    passed `prefix_of` buildable.1 /\
    pass.1.1
    = buildable.2
      ++ ((fun proj =>
             warnNoProjectConfiguration proj
               (@ToConfig scenario.helpers "Release" "iPhone"))
          <$> filter (fun proj =>
                        resolvedConfig
                          (@ToConfig scenario.helpers "Release" "iPhone")
                          proj = None) passed).
Proof.
  intros pass buildable.
  assert (pass = ((pass.1.1, pass.1.2), pass.2)) as Hpass
    by (vm_compute; reflexivity).
  split; [reflexivity|]. split; [exact Hpass|].
  destruct (@returned_warnings scenario.machine scenario.helpers
              scenario.mixed "Release" "iPhone" None None scenario.start
              _ _ _ eq_refl Hpass) as (passed & Hprefix & Hwarnings & _).
  exists passed. split; [exact Hprefix|exact Hwarnings].
Defined.

Lemma collect_error_returns_empty_map_witness :
  @CollectOutput scenario.unreadableManifest scenario.mixed
    "Release" "iPhone" = (∅, Some "manifest unreadable") /\
  (∅ : gmap ProjectType (gmap OutputType string)) = ∅.
Proof.
  assert (@CollectOutput scenario.unreadableManifest scenario.mixed
            "Release" "iPhone" = (∅, Some "manifest unreadable")) as Hrun
    by (vm_compute; reflexivity).
  split; [exact Hrun|].
  exact (@collect_error_returns_empty_map scenario.unreadableManifest
           scenario.mixed "Release" "iPhone" ∅ "manifest unreadable" Hrun).
Defined.

Lemma collected_paths_come_from_probes_witness :
  @CollectOutput scenario.helpers scenario.mixed "Release" "iPhone"
  = (scenario.collected, None) /\
  scenario.collected !! ProjectTypeAndroid
  = Some {[ OutputTypeAPK := "bin/Release/com.example.app.apk" ]} /\
  ({[ OutputTypeAPK := "bin/Release/com.example.app.apk" ]}
     : gmap OutputType string) !! OutputTypeAPK
  = Some "bin/Release/com.example.app.apk" /\
  "bin/Release/com.example.app.apk" <> "".
Proof.
  assert (@CollectOutput scenario.helpers scenario.mixed "Release" "iPhone"
          = (scenario.collected, None)) as Hrun
    by (vm_compute; reflexivity).
  split; [exact Hrun|]. split; [reflexivity|]. split; [reflexivity|].
  exact (proj1 (@collected_paths_come_from_probes scenario.helpers
                  scenario.mixed "Release" "iPhone" scenario.collected
                  ProjectTypeAndroid _ OutputTypeAPK _ Hrun eq_refl eq_refl)).
Defined.

Lemma collected_kinds_by_type_witness :
  @CollectOutput scenario.helpers scenario.mixed "Release" "iPhone"
  = (scenario.collected, None) /\
  scenario.collected !! ProjectTypeIOS
  = Some {[ OutputTypeXCArchive := "/Archives/App.iOS.xcarchive" ]} /\
  is_Some (({[ OutputTypeXCArchive := "/Archives/App.iOS.xcarchive" ]}
              : gmap OutputType string) !! OutputTypeXCArchive) /\
  OutputTypeXCArchive ∈ artifactKinds scenario.mixed ProjectTypeIOS.
Proof.
  assert (@CollectOutput scenario.helpers scenario.mixed "Release" "iPhone"
          = (scenario.collected, None)) as Hrun
    by (vm_compute; reflexivity).
  assert (is_Some (({[ OutputTypeXCArchive := "/Archives/App.iOS.xcarchive" ]}
                      : gmap OutputType string) !! OutputTypeXCArchive))
    as Hsome by (eexists; reflexivity).
  split; [exact Hrun|]. split; [reflexivity|]. split; [exact Hsome|].
  exact (@collected_kinds_by_type scenario.helpers scenario.mixed
           "Release" "iPhone" scenario.collected ProjectTypeIOS _
           OutputTypeXCArchive Hrun eq_refl Hsome).
Defined.

Lemma collected_path_is_latest_witness :
  @CollectOutput scenario.helpers scenario.mixed "Release" "iPhone"
  = (scenario.collected, None) /\
  scenario.collected !! ProjectTypeIOS ≫= (.!! OutputTypeXCArchive)
  = @latestFound scenario.helpers scenario.mixed
      (@ToConfig scenario.helpers "Release" "iPhone")
      (@buildableProjects scenario.helpers scenario.mixed
         "Release" "iPhone").1
      ProjectTypeIOS OutputTypeXCArchive None.
Proof.
  assert (@CollectOutput scenario.helpers scenario.mixed "Release" "iPhone"
          = (scenario.collected, None)) as Hrun
    by (vm_compute; reflexivity).
  split; [exact Hrun|].
  exact (@collected_path_is_latest scenario.helpers scenario.mixed
           "Release" "iPhone" scenario.collected ProjectTypeIOS
           OutputTypeXCArchive Hrun).
Defined.

Lemma clean_nothing_to_remove_witness :
  Forall (fun check : project.Model * string =>
            @pathutil_IsDirExists scenario.diskOfDirs check.2
              (disk scenario.cleanTree) = Ok false)
    (@plannedChecks scenario.diskOfDirs
       (@filteredProjects scenario.helpers scenario.twoIOSApps)) /\
  exists new,
    @CleanAll scenario.diskOfDirs scenario.helpers scenario.twoIOSApps
      (Some scenario.quietClearCallback) scenario.cleanTree
    = (None,
       {| disk := disk scenario.cleanTree;
          calls := calls scenario.cleanTree ++ new |}) /\
    removedOf new = [].
Proof.
  assert (Forall (fun check : project.Model * string =>
            @pathutil_IsDirExists scenario.diskOfDirs check.2
              (disk scenario.cleanTree) = Ok false)
            (@plannedChecks scenario.diskOfDirs
               (@filteredProjects scenario.helpers scenario.twoIOSApps)))
    as Habsent.
  { vm_compute. repeat constructor. }
  split; [exact Habsent|].
  destruct (@clean_nothing_to_remove scenario.diskOfDirs scenario.helpers
              scenario.twoIOSApps (Some scenario.quietClearCallback)
              scenario.cleanTree Habsent) as (new & Hrun & _ & _ & Hremoved).
  exists new. split; [exact Hrun|exact Hremoved].
Defined.
